(** * fernet_fields: encrypted and dual (encrypted + hashed) model fields

    A shallow embedding of [src/fernet_fields/fields.py] together with the
    properties its specification states about it.

    The module under study is glue code: it combines the [cryptography]
    package (Fernet, MultiFernet), [hashlib.sha256], Django's
    [models.Field] base class and [django.utils.encoding], and the sibling
    module [hkdf].  The embedding keeps the methods of [fields.py] as they
    are written and models their collaborators as follows.

    - [hashlib.sha256] is implemented in full (FIPS 180-4) over [Z].
    - [force_bytes] / [force_text], [int()] on text and bytes, and the
      part of [models.Field] that [fields.py] calls are small executable
      models of Python 3 and Django 1.8.
    - [Fernet(key)] decodes its key as the library does: text or bytes,
      url-safe base64 of 32 bytes.  Base64 decoding and the authenticated
      encryption under the decoded key ([fernet.Primitive]), and
      [hkdf.derive_fernet_key] ([hkdf.Derivation]), are operations of an
      interface; what the proofs need from them is stated as laws
      ([FernetLaws], [HkdfLaws]) and is realised by a reference instance
      on which every conditional theorem is run on concrete data. *)

From Stdlib Require Import ZArith List String Ascii Lia.
From Stdlib Require Import Init.Byte Strings.Byte.
From Stdlib Require Import DecimalString DecimalZ DecimalPos.
From Stdlib Require Import HexadecimalString HexadecimalPos.
From stdpp Require Import base option gmap strings list.

Local Open Scope string_scope.
Local Open Scope list_scope.
Local Open Scope Z_scope.

(** Byte strings ([bytes] in Python). *)
Abbreviation bytes := (list byte).

#[global] Instance byte_eq_decision : EqDecision byte := byte_eq_dec.

(** ** Python exceptions and the error monad *)

Inductive exn : Type :=
  | ImproperlyConfigured (msg : string)
  | FieldError (msg : string)
  | InvalidToken
  | ValueError
  | TypeError
  | AttributeError
  | IndexError
  | ValidationError
  | UnicodeDecodeError.

Inductive result (A : Type) : Type :=
  | Ok (a : A)
  | Raise (e : exn).
Arguments Ok {A} a.
Arguments Raise {A} e.

#[global] Instance result_ret : MRet result := fun A a => Ok a.
#[global] Instance result_bind : MBind result := fun A B k m =>
  match m with
  | Ok a => k a
  | Raise e => Raise e
  end.

#[global] Instance result_fmap : FMap result := fun A B f m =>
  match m with
  | Ok a => Ok (f a)
  | Raise e => Raise e
  end.

Definition succeeds {A : Type} (m : result A) : Prop :=
  match m with Ok _ => True | Raise _ => False end.


(** [[f(x) for x in xs]]: the comprehension stops at the first exception. *)
Fixpoint comprehension {A B : Type} (f : A -> result B) (xs : list A)
  : result (list B) :=
  match xs with
  | [] => Ok []
  | x :: xs' => y ← f x; ys ← comprehension f xs'; Ok (y :: ys)
  end.

(** ** Python values

    Text is represented by its UTF-8 encoding (a Rocq [string] is a sequence
    of bytes); [PObject] is a bare [object()] identified by its address. *)

Inductive pyval : Type :=
  | PNone
  | PBool (b : bool)
  | PInt (z : Z)
  | PStr (s : string)
  | PBytes (b : bytes)
  | PObject (addr : positive).

#[global] Instance pyval_eq_decision : EqDecision pyval.
Proof. solve_decision. Defined.

(** [x is None] *)
Definition is_None (v : pyval) : bool :=
  match v with PNone => true | _ => false end.

(** [isinstance(x, (str, bytes))] *)
Definition is_text_or_bytes (v : pyval) : bool :=
  match v with PStr _ | PBytes _ => true | _ => false end.

(** Truth value testing, as [if x:] does it. *)
Definition truthy (v : pyval) : bool :=
  match v with
  | PNone => false
  | PBool b => b
  | PInt z => negb (z =? 0)
  | PStr s => negb (String.eqb s "")
  | PBytes b => match b with [] => false | _ => true end
  | PObject _ => true
  end.

(** [kwargs.get(name)] followed by a truth test; a missing key gives [None]. *)
Definition kwargs_get (kwargs : gmap string pyval) (name : string) : pyval :=
  default PNone (kwargs !! name).

(** ** hashlib.sha256 (FIPS 180-4) *)

Module hashlib.

Definition w32 (x : Z) : Z := x mod 2 ^ 32.
Definition add32 (x y : Z) : Z := w32 (x + y).
Definition ROTR (n x : Z) : Z :=
  Z.lor (Z.shiftr x n) (w32 (Z.shiftl x (32 - n))).
Definition SHR (n x : Z) : Z := Z.shiftr x n.
Definition not32 (x : Z) : Z := Z.lxor x (2 ^ 32 - 1).

Definition Ch (x y z : Z) : Z :=
  Z.lxor (Z.land x y) (Z.land (not32 x) z).
Definition Maj (x y z : Z) : Z :=
  Z.lxor (Z.lxor (Z.land x y) (Z.land x z)) (Z.land y z).
Definition bsig0 (x : Z) : Z :=
  Z.lxor (Z.lxor (ROTR 2 x) (ROTR 13 x)) (ROTR 22 x).
Definition bsig1 (x : Z) : Z :=
  Z.lxor (Z.lxor (ROTR 6 x) (ROTR 11 x)) (ROTR 25 x).
Definition ssig0 (x : Z) : Z :=
  Z.lxor (Z.lxor (ROTR 7 x) (ROTR 18 x)) (SHR 3 x).
Definition ssig1 (x : Z) : Z :=
  Z.lxor (Z.lxor (ROTR 17 x) (ROTR 19 x)) (SHR 10 x).

Definition K256 : list Z :=
  [ 1116352408; 1899447441; 3049323471; 3921009573;
    961987163; 1508970993; 2453635748; 2870763221;
    3624381080; 310598401; 607225278; 1426881987;
    1925078388; 2162078206; 2614888103; 3248222580;
    3835390401; 4022224774; 264347078; 604807628;
    770255983; 1249150122; 1555081692; 1996064986;
    2554220882; 2821834349; 2952996808; 3210313671;
    3336571891; 3584528711; 113926993; 338241895;
    666307205; 773529912; 1294757372; 1396182291;
    1695183700; 1986661051; 2177026350; 2456956037;
    2730485921; 2820302411; 3259730800; 3345764771;
    3516065817; 3600352804; 4094571909; 275423344;
    430227734; 506948616; 659060556; 883997877;
    958139571; 1322822218; 1537002063; 1747873779;
    1955562222; 2024104815; 2227730452; 2361852424;
    2428436474; 2756734187; 3204031479; 3329325298 ].

(** The eight working variables / chaining values. *)
Record state : Type := State
  { sa : Z; sb : Z; sc : Z; sd : Z; se : Z; sf : Z; sg : Z; sh : Z }.

Definition H0 : state :=
  State 1779033703 3144134277 1013904242 2773480762
        1359893119 2600822924 528734635 1541459225.

Definition Z_of_byte (b : byte) : Z := Z.of_N (Byte.to_N b).
Definition byte_of_Z (z : Z) : byte :=
  default x00 (Byte.of_N (Z.to_N (z mod 256))).

(** Big-endian encodings of a 32-bit and of a 64-bit quantity. *)
Definition be32 (x : Z) : bytes :=
  [ byte_of_Z (Z.shiftr x 24); byte_of_Z (Z.shiftr x 16);
    byte_of_Z (Z.shiftr x 8); byte_of_Z x ].
Definition be64 (x : Z) : bytes := be32 (Z.shiftr x 32) ++ be32 x.

(** Padding: 0x80, zeros up to 56 mod 64, then the bit length. *)
Definition pad (msg : bytes) : bytes :=
  let n := Z.of_nat (length msg) in
  let k := (55 - n) mod 64 in
  msg ++ [x80] ++ repeat x00 (Z.to_nat k) ++ be64 (8 * n).

(** The sixteen big-endian words of a 64-byte block. *)
Fixpoint words (n : nat) (l : bytes) : list Z :=
  match n, l with
  | S n', b0 :: b1 :: b2 :: b3 :: l' =>
      (Z_of_byte b0 * 16777216 + Z_of_byte b1 * 65536
       + Z_of_byte b2 * 256 + Z_of_byte b3) :: words n' l'
  | _, _ => []
  end.

(** Message schedule: [win] holds the sixteen latest words, newest first. *)
Fixpoint schedule (n : nat) (win : list Z) (acc : list Z) : list Z :=
  match n with
  | O => rev acc
  | S n' =>
      let wt := add32 (add32 (ssig1 (nth 1 win 0)) (nth 6 win 0))
                      (add32 (ssig0 (nth 14 win 0)) (nth 15 win 0)) in
      schedule n' (wt :: firstn 15 win) (wt :: acc)
  end.

Definition W (block : bytes) : list Z :=
  let w16 := words 16 block in
  schedule 48 (rev w16) (rev w16).

Definition round (s : state) (kw : Z * Z) : state :=
  let T1 := add32 (add32 (add32 (sh s) (bsig1 (se s)))
                         (add32 (Ch (se s) (sf s) (sg s)) (fst kw)))
                  (snd kw) in
  let T2 := add32 (bsig0 (sa s)) (Maj (sa s) (sb s) (sc s)) in
  State (add32 T1 T2) (sa s) (sb s) (sc s)
        (add32 (sd s) T1) (se s) (sf s) (sg s).

Definition compress (h : state) (block : bytes) : state :=
  let s := fold_left round (combine K256 (W block)) h in
  State (add32 (sa h) (sa s)) (add32 (sb h) (sb s))
        (add32 (sc h) (sc s)) (add32 (sd h) (sd s))
        (add32 (se h) (se s)) (add32 (sf h) (sf s))
        (add32 (sg h) (sg s)) (add32 (sh h) (sh s)).

Fixpoint blocks (n : nat) (h : state) (l : bytes) : state :=
  match n with
  | O => h
  | S n' => blocks n' (compress h (firstn 64 l)) (skipn 64 l)
  end.

Definition digest_of (s : state) : bytes :=
  be32 (sa s) ++ be32 (sb s) ++ be32 (sc s) ++ be32 (sd s) ++
  be32 (se s) ++ be32 (sf s) ++ be32 (sg s) ++ be32 (sh s).

(** [sha256(msg).digest()] *)
Definition sha256 (msg : bytes) : bytes :=
  let p := pad msg in
  digest_of (blocks (length p / 64)%nat H0 p).

(** [digest().hex()], for reading test vectors. *)
Definition hex_digit (z : Z) : ascii :=
  nth (Z.to_nat z)
      (list_ascii_of_string "0123456789abcdef") "0"%char.
Fixpoint hex (l : bytes) : string :=
  match l with
  | [] => ""
  | b :: l' =>
      String (hex_digit (Z_of_byte b / 16))
        (String (hex_digit (Z_of_byte b mod 16)) (hex l'))
  end.

End hashlib.

Example sha256_empty :
  hashlib.hex (hashlib.sha256 [])
  = "e3b0c44298fc1c149afbf4c8996fb92427ae41e4649b934ca495991b7852b855".
Proof. vm_compute. reflexivity. Qed.

(** 56 and 64 bytes: the padding spills into a second block. *)
Example sha256_two_blocks :
  hashlib.hex (hashlib.sha256 (repeat "a"%byte 56))
  = "b35439a4ac6f0948b6d6f9e3c6af0f5f590ce20f1bde7090ef7970686ec6738a" /\
  hashlib.hex (hashlib.sha256 (repeat "a"%byte 64))
  = "ffe054fe7ae0cb6dc65c3af9b61d5209f439851db43d0ba5997337df154668eb".
Proof. vm_compute. split; reflexivity. Qed.

Example sha256_abc :
  hashlib.hex (hashlib.sha256 (list_byte_of_string "abc"))
  = "ba7816bf8f01cfea414140de5dae2223b00361a396177a9cb410ff61f20015ad".
Proof. vm_compute. reflexivity. Qed.

(** ** django.utils.encoding *)

Module encoding.

Definition in_range (lo hi : Z) (b : byte) : bool :=
  (lo <=? hashlib.Z_of_byte b) && (hashlib.Z_of_byte b <=? hi).

(** Well-formed UTF-8 byte sequences (RFC 3629); anything else makes
    [bytes.decode('utf-8')] raise. *)
Fixpoint utf8_valid (l : bytes) : bool :=
  match l with
  | [] => true
  | b0 :: l1 =>
      if in_range 0 127 b0 then utf8_valid l1 else
      match l1 with
      | [] => false
      | b1 :: l2 =>
          if in_range 194 223 b0 then in_range 128 191 b1 && utf8_valid l2
          else
          match l2 with
          | [] => false
          | b2 :: l3 =>
              if in_range 224 239 b0 then
                (if in_range 224 224 b0 then in_range 160 191 b1
                 else if in_range 237 237 b0 then in_range 128 159 b1
                 else in_range 128 191 b1)
                && in_range 128 191 b2 && utf8_valid l3
              else
              match l3 with
              | [] => false
              | b3 :: l4 =>
                  in_range 240 244 b0
                  && (if in_range 240 240 b0 then in_range 144 191 b1
                      else if in_range 244 244 b0 then in_range 128 143 b1
                      else in_range 128 191 b1)
                  && in_range 128 191 b2 && in_range 128 191 b3
                  && utf8_valid l4
              end
          end
      end
  end.

(** [str(n)] for an integer. *)
Definition str_int (z : Z) : string :=
  DecimalString.NilZero.string_of_int (Z.to_int z).

(** [str(x)] for a bare object: [<object object at 0x...>]. *)
Definition str_object (addr : positive) : string :=
  ("<object object at 0x"
   ++ HexadecimalString.NilZero.string_of_uint (Pos.to_hex_uint addr)
   ++ ">")%string.

Definition str_bool (b : bool) : string := if b then "True" else "False".

(** [force_bytes(s)]: bytes are returned as they are, text is encoded,
    anything else is encoded from its [str()]. *)
Definition force_bytes (s : pyval) : bytes :=
  match s with
  | PBytes b => b
  | PStr t => list_byte_of_string t
  | PNone => list_byte_of_string "None"
  | PBool b => list_byte_of_string (str_bool b)
  | PInt z => list_byte_of_string (str_int z)
  | PObject a => list_byte_of_string (str_object a)
  end.

(** [force_text(s)]: text is returned as it is, bytes are decoded
    (strictly), anything else goes through [str()]. *)
Definition force_text (s : pyval) : result pyval :=
  match s with
  | PStr t => Ok (PStr t)
  | PBytes b =>
      if utf8_valid b then Ok (PStr (string_of_list_byte b))
      else Raise UnicodeDecodeError
  | PNone => Ok (PStr "None")
  | PBool b => Ok (PStr (str_bool b))
  | PInt z => Ok (PStr (str_int z))
  | PObject a => Ok (PStr (str_object a))
  end.

Definition is_space (c : ascii) : bool :=
  bool_decide (c ∈ [" "; "009"; "010"; "011"; "012"; "013"]%char).

Fixpoint lstrip (s : string) : string :=
  match s with
  | String c s' => if is_space c then lstrip s' else s
  | EmptyString => EmptyString
  end.

Fixpoint rstrip (s : string) : string :=
  match s with
  | String c s' =>
      match rstrip s' with
      | EmptyString => if is_space c then EmptyString else String c EmptyString
      | t => String c t
      end
  | EmptyString => EmptyString
  end.

(** The code points of a well-formed UTF-8 byte sequence. *)
Fixpoint utf8_decode (l : bytes) : option (list Z) :=
  match l with
  | [] => Some []
  | b0 :: l1 =>
      let c0 := hashlib.Z_of_byte b0 in
      if in_range 0 127 b0 then cons c0 <$> utf8_decode l1 else
      match l1 with
      | [] => None
      | b1 :: l2 =>
          let c1 := hashlib.Z_of_byte b1 - 128 in
          if in_range 194 223 b0 then
            if in_range 128 191 b1
            then cons ((c0 - 192) * 64 + c1) <$> utf8_decode l2
            else None
          else
          match l2 with
          | [] => None
          | b2 :: l3 =>
              let c2 := hashlib.Z_of_byte b2 - 128 in
              if in_range 224 239 b0 then
                if (if in_range 224 224 b0 then in_range 160 191 b1
                    else if in_range 237 237 b0 then in_range 128 159 b1
                    else in_range 128 191 b1)
                   && in_range 128 191 b2
                then cons ((c0 - 224) * 4096 + c1 * 64 + c2)
                       <$> utf8_decode l3
                else None
              else
              match l3 with
              | [] => None
              | b3 :: l4 =>
                  let c3 := hashlib.Z_of_byte b3 - 128 in
                  if in_range 240 244 b0
                     && (if in_range 240 240 b0 then in_range 144 191 b1
                         else if in_range 244 244 b0 then in_range 128 143 b1
                         else in_range 128 191 b1)
                     && in_range 128 191 b2 && in_range 128 191 b3
                  then cons ((c0 - 240) * 262144 + c1 * 4096 + c2 * 64 + c3)
                         <$> utf8_decode l4
                  else None
              end
          end
      end
  end.

(** [str.isspace] above the ASCII range (Unicode 14, the tables of
    Python 3.11). *)
Definition unicode_space (cp : Z) : bool :=
  bool_decide (cp ∈ [133; 160; 5760; 8232; 8233; 8239; 8287; 12288])
  || ((8192 <=? cp) && (cp <=? 8202)).

(** The zeros of the decimal digits of Unicode 14 (category Nd); the
    digits one to nine of each script follow its zero. *)
Definition decimal_zeros : list Z :=
  [
    48; 1632; 1776; 1984; 2406; 2534; 2662; 2790; 2918; 3046; 3174; 3302;
    3430; 3558; 3664; 3792; 3872; 4160; 4240; 6112; 6160; 6470; 6608;
    6784; 6800; 6992; 7088; 7232; 7248; 42528; 43216; 43264; 43472; 43504;
    43600; 44016; 65296; 66720; 68912; 69734; 69872; 69942; 70096; 70384;
    70736; 70864; 71248; 71360; 71472; 71904; 72016; 72784; 73040; 73120;
    92768; 92864; 93008; 120782; 120792; 120802; 120812; 120822; 123200;
    123632; 125264; 130032 ].

(** [unicodedata.decimal(chr(cp))], if the code point is a decimal digit *)
Definition unicode_decimal (cp : Z) : option Z :=
  (fun zero => cp - zero)
    <$> List.find (fun zero => (zero <=? cp) && (cp <=? zero + 9))
          decimal_zeros.

(** What [int()] reads a code point of a text as: ASCII stays, other
    white space is a space, other decimal digits are their ASCII digits,
    and anything else is a character no literal has. *)
Definition ascii_of_code_point (cp : Z) : ascii :=
  if cp <? 127 then ascii_of_N (Z.to_N cp)
  else if unicode_space cp then " "%char
  else match unicode_decimal cp with
       | Some d => ascii_of_N (Z.to_N (48 + d))
       | None => "?"%char
       end.

(** The ASCII literal [int()] parses for a text; none for text that is
    not well-formed. *)
Definition transform_decimal_and_space_to_ascii (s : string)
  : option string :=
  (fun cps => string_of_list_ascii (map ascii_of_code_point cps))
    <$> utf8_decode (list_byte_of_string s).

Definition is_digit (c : ascii) : bool :=
  bool_decide (c ∈ list_ascii_of_string "0123456789").

(** The digits of a literal's body with its underscores taken out: the
    body starts and ends with a digit, and an underscore stands between
    two digits only. *)
Fixpoint digits_from (after_digit : bool) (s : string) : option string :=
  match s with
  | EmptyString => if after_digit then Some EmptyString else None
  | String c t =>
      if is_digit c then String c <$> digits_from true t
      else if Ascii.eqb c "_" && after_digit then digits_from false t
      else None
  end.

Definition digits (s : string) : option string := digits_from false s.

Definition decimal (s : string) : option Z :=
  Z.of_int <$> DecimalString.NilZero.int_of_string s.

(** The ASCII literals [int()] accepts in base ten: surrounding white
    space, an optional sign, digits grouped by single underscores. *)
Definition parse_int (s : string) : option Z :=
  match rstrip (lstrip s) with
  | String c t =>
      if Ascii.eqb c "+" then digits t ≫= decimal
      else if Ascii.eqb c "-" then
        digits t ≫= fun d => decimal (String "-" d)
      else digits (String c t) ≫= decimal
  | EmptyString => None
  end.

(** [int(x)]: a number is its value, text is read through its ASCII
    form, bytes are read as they are. *)
Definition int (v : pyval) : result Z :=
  match v with
  | PInt z => Ok z
  | PBool b => Ok (if b then 1 else 0)
  | PStr s =>
      match transform_decimal_and_space_to_ascii s ≫= parse_int with
      | Some z => Ok z
      | None => Raise ValueError
      end
  | PBytes b =>
      match parse_int (string_of_list_byte b) with
      | Some z => Ok z
      | None => Raise ValueError
      end
  | PNone | PObject _ => Raise TypeError
  end.

End encoding.

Example utf8_valid_examples :
  encoding.utf8_valid [xc3; xa9] = true /\          (* U+00E9 *)
  encoding.utf8_valid [xe2; x82; xac] = true /\     (* U+20AC *)
  encoding.utf8_valid [xf0; x9f; x94; x91] = true /\ (* U+1F511 *)
  encoding.utf8_valid [xc0; x80] = false /\         (* overlong *)
  encoding.utf8_valid [xed; xa0; x80] = false /\    (* surrogate *)
  encoding.utf8_valid [xf4; x90; x80; x80] = false /\ (* above U+10FFFF *)
  encoding.utf8_valid [xe2; x82] = false.           (* truncated *)
Proof. repeat split; reflexivity. Qed.

Example int_examples :
  encoding.int (PStr "  +12 ") = Ok 12 /\
  encoding.int (PStr "-007") = Ok (-7) /\
  encoding.int (PStr "1_000") = Ok 1000 /\
  encoding.int (PStr "1__0") = Raise ValueError /\
  encoding.int (PStr "_1") = Raise ValueError /\
  encoding.int (PStr "٤٢") = Ok 42 /\               (* U+0664 U+0662 *)
  encoding.int (PBytes (list_byte_of_string "٤٢")) = Raise ValueError /\
  encoding.int (PBytes (list_byte_of_string " 1_0 ")) = Ok 10 /\
  encoding.int (PStr "") = Raise ValueError /\
  encoding.int (PStr "-") = Raise ValueError /\
  encoding.int (PStr "+-1") = Raise ValueError /\
  encoding.int (PStr "1 2") = Raise ValueError /\
  encoding.int PNone = Raise TypeError /\
  encoding.force_bytes (PInt (-42)) = list_byte_of_string "-42".
Proof. repeat split; reflexivity. Qed.

(** ** django.db.models: the part of [models.Field] that fields.py uses *)

(** A storage cell of a binary column: [None] or
    [connection.Database.Binary(b)]. *)
Inductive dbval : Type :=
  | NULL
  | Binary (b : bytes).

(** The right-hand side of a lookup: one value, or a sequence of values for
    [in] and [range]. *)
Inductive rhs : Type :=
  | One (v : pyval)
  | Many (vs : list pyval).

(** [getattr(obj, name)] on an instance, seen as its attribute dictionary. *)
Definition getattr (obj : gmap string pyval) (name : string) : result pyval :=
  match obj !! name with
  | Some v => Ok v
  | None => Raise AttributeError
  end.

(** [setattr(obj, name, value)] for a plain attribute. *)
Definition setattr (obj : gmap string pyval) (name : string) (value : pyval)
  : gmap string pyval :=
  <[name := value]> obj.

Module models.

(** The class attributes [Field.creation_counter] and
    [Field.auto_creation_counter]. *)
Record counters : Type := Counters
  { Field_creation_counter : Z;
    Field_auto_creation_counter : Z }.

Definition initial_counters : counters := Counters 0 (-1).

(** A field object: its constructor arguments as bound to the parameter
    names, its creation counter, and the names it gets from
    [contribute_to_class]. *)
Record Field : Type := mkField
  { init_args : gmap string pyval;
    creation_counter : Z;
    name : option string;
    attname : option string }.

Definition with_creation_counter (f : Field) (n : Z) : Field :=
  mkField (init_args f) n (name f) (attname f).

(** The parameters of [Field.__init__], in positional order. *)
Definition parameters : list string :=
  [ "verbose_name"; "name"; "primary_key"; "max_length"; "unique";
    "blank"; "null"; "db_index"; "rel"; "default"; "editable";
    "serialize"; "unique_for_date"; "unique_for_month";
    "unique_for_year"; "choices"; "help_text"; "db_column";
    "db_tablespace"; "auto_created"; "validators"; "error_messages" ].

Fixpoint bind_positional (ps : list string) (args : list pyval)
    (acc : gmap string pyval) : result (gmap string pyval) :=
  match args, ps with
  | [], _ => Ok acc
  | _ :: _, [] => Raise TypeError
  | a :: args', p :: ps' => bind_positional ps' args' (<[p := a]> acc)
  end.

(** Argument binding of a call to [Field] with positional and keyword
    arguments: too many
    positional arguments, an unknown keyword, or a keyword that repeats a
    positional argument is a [TypeError]. *)
Definition bind_arguments (args : list pyval) (kwargs : gmap string pyval)
  : result (gmap string pyval) :=
  bound ← bind_positional parameters args ∅;
  if bool_decide
       (map_Forall (fun k _ => k ∈ parameters ∧ bound !! k = None) kwargs)
  then Ok (kwargs ∪ bound)
  else Raise TypeError.

(** An attribute set by [__init__] from a parameter with a default. *)
Definition attribute (f : Field) (p : string) (dflt : pyval) : pyval :=
  default dflt (init_args f !! p).

Definition null (f : Field) : pyval := attribute f "null" (PBool false).
Definition editable (f : Field) : pyval := attribute f "editable" (PBool true).
Definition primary_key (f : Field) : pyval :=
  attribute f "primary_key" (PBool false).
Definition _unique (f : Field) : pyval := attribute f "unique" (PBool false).
(** The property [unique]: [self._unique or self.primary_key]. *)
Definition unique (f : Field) : pyval :=
  if truthy (_unique f) then _unique f else primary_key f.
Definition db_index (f : Field) : pyval :=
  attribute f "db_index" (PBool false).

(** [Field.__init__]: binds the arguments and takes the next creation
    counter (a negative one for an auto-created field). *)
Definition __init__ (args : list pyval) (kwargs : gmap string pyval)
    (c : counters) : result (Field * counters) :=
  bound ← bind_arguments args kwargs;
  let nm := match bound !! "name" with Some (PStr s) => Some s | _ => None end in
  if truthy (default (PBool false) (bound !! "auto_created")) then
    Ok (mkField bound (Field_auto_creation_counter c) nm None,
        Counters (Field_creation_counter c)
                 (Field_auto_creation_counter c - 1))
  else
    Ok (mkField bound (Field_creation_counter c) nm None,
        Counters (Field_creation_counter c + 1)
                 (Field_auto_creation_counter c)).

(** [Field.set_attributes_from_name], as [contribute_to_class] calls it:
    a name given to the constructor wins. *)
Definition set_attributes_from_name (f : Field) (n : string) : Field :=
  let nm := match name f with
            | Some s => if truthy (PStr s) then s else n
            | None => n
            end in
  mkField (init_args f) (creation_counter f) (Some nm) (Some nm).

(** [Field.value_from_object(obj)]: [getattr(obj, self.attname)]. *)
Definition value_from_object (f : Field) (obj : gmap string pyval)
  : result pyval :=
  match attname f with
  | Some a => getattr obj a
  | None => Raise AttributeError
  end.

(** The methods a concrete field class ([models.TextField],
    [models.IntegerField], ...) contributes to [EncryptedField] and
    [DualField] through [super()] and method resolution. *)
Record FieldClass : Type := mkFieldClass
  { get_prep_value : pyval -> result pyval;
    to_python : pyval -> result pyval;
    (* arguments: prepared, value *)
    get_db_prep_value : bool -> pyval -> result pyval;
    get_prep_lookup : string -> rhs -> result rhs }.

(** [Field.get_db_prep_value(value, connection, prepared)] *)
Definition Field_get_db_prep_value (gpv : pyval -> result pyval)
    (prepared : bool) (value : pyval) : result pyval :=
  if prepared then Ok value else gpv value.

(** [Field.get_db_prep_save(value, connection)] *)
Definition get_db_prep_save (cls : FieldClass) (value : pyval)
  : result pyval :=
  get_db_prep_value cls false value.

(** [Field.get_prep_lookup(lookup_type, value)]; the right-hand side is
    typed here, and a sequence where one value is expected, or one value
    where a sequence is, is reported as a [TypeError]. *)
Definition Field_get_prep_lookup (gpv : pyval -> result pyval)
    (lookup_type : string) (value : rhs) : result rhs :=
  if bool_decide (lookup_type ∈
       [ "iexact"; "contains"; "icontains"; "startswith"; "istartswith";
         "endswith"; "iendswith"; "isnull"; "search"; "regex"; "iregex" ])
  then Ok value
  else if bool_decide (lookup_type ∈ [ "range"; "in" ]) then
    match value with
    | Many vs => Many <$> comprehension gpv vs
    | One _ => Raise TypeError
    end
  else
    match value with
    | One v =>
        if bool_decide (lookup_type = "year") then
          (* a [ValueError] is raised again with another message *)
          match encoding.int v with
          | Ok z => Ok (One (PInt z))
          | Raise e => Raise e
          end
        else One <$> gpv v
    | Many _ => Raise TypeError
    end.

Definition make_class (gpv to_py : pyval -> result pyval) : FieldClass :=
  mkFieldClass gpv to_py (Field_get_db_prep_value gpv)
               (Field_get_prep_lookup gpv).

(** [models.Field] itself: values pass unchanged. *)
Definition Field_class : FieldClass := make_class Ok Ok.

(** [models.TextField], [models.CharField], [models.EmailField]:
    text and [None] pass, anything else becomes text. *)
Definition text_to_python (value : pyval) : result pyval :=
  match value with
  | PStr _ | PNone => Ok value
  | _ => encoding.force_text value
  end.
Definition TextField : FieldClass := make_class text_to_python text_to_python.
Definition CharField : FieldClass := TextField.
Definition EmailField : FieldClass := TextField.

(** [models.IntegerField]: [None] passes, anything else goes through
    [int()]; [to_python] reports a failure as a validation error. *)
Definition integer_get_prep_value (value : pyval) : result pyval :=
  match value with
  | PNone => Ok PNone
  | _ => PInt <$> encoding.int value
  end.
Definition integer_to_python (value : pyval) : result pyval :=
  match value with
  | PNone => Ok PNone
  | _ =>
      match encoding.int value with
      | Ok z => Ok (PInt z)
      | Raise _ => Raise ValidationError
      end
  end.
Definition IntegerField : FieldClass :=
  make_class integer_get_prep_value integer_to_python.

End models.

(** ** cryptography.fernet *)

Module fernet.

(** What one call of [Fernet.encrypt] draws from its environment:
    [int(time.time())] and [os.urandom(16)]. *)
Record entropy : Type := Entropy
  { current_time : Z;
    iv : bytes }.

(** What the library keeps abstract here: base64 decoding, and
    authenticated encryption under the 32 bytes of key material. *)
Class Primitive : Type :=
  { (* [base64.b64decode] of url-safe core text; [None] is
       [binascii.Error] *)
    b64decode : bytes -> option bytes;
    (* the token [Fernet.encrypt] builds under the key material *)
    seal : bytes -> entropy -> bytes -> bytes;
    (* [Fernet.decrypt] under the key material, no ttl; [None] is
       [InvalidToken] *)
    unseal : bytes -> bytes -> option bytes }.

Section classes.
Context `{!Primitive}.

(** [base64.urlsafe_b64decode(s)]: text must be ASCII and is decoded as
    its bytes are, bytes are decoded, anything else is a [TypeError];
    [binascii.Error] is a [ValueError]. *)
Definition urlsafe_b64decode (s : pyval) : result bytes :=
  match s with
  | PStr t =>
      if forallb (encoding.in_range 0 127) (list_byte_of_string t) then
        match b64decode (list_byte_of_string t) with
        | Some raw => Ok raw
        | None => Raise ValueError
        end
      else Raise ValueError
  | PBytes b =>
      match b64decode b with
      | Some raw => Ok raw
      | None => Raise ValueError
      end
  | PNone | PBool _ | PInt _ | PObject _ => Raise TypeError
  end.

(** The key material a key stands for. *)
Definition raw_key (k : pyval) : bytes :=
  match urlsafe_b64decode k with
  | Ok raw => raw
  | Raise _ => []
  end.

(** [key[:16]] authenticates a token, [key[16:]] encrypts it. *)
Definition signing_key (k : pyval) : bytes := take 16 (raw_key k).
Definition encryption_key (k : pyval) : bytes := drop 16 (raw_key k).

(** A [Fernet] object, named by the key it was built from. *)
Record Fernet : Type := mkFernet { key : pyval }.

(** [Fernet(key)]: decode the key, which must give 32 bytes. *)
Definition Fernet_new (k : pyval) : result Fernet :=
  raw ← urlsafe_b64decode k;
  if (length raw =? 32)%nat then Ok (mkFernet k) else Raise ValueError.

(** [Fernet(key)] accepts the key. *)
Definition key_ok (k : pyval) : bool :=
  match Fernet_new k with
  | Ok _ => true
  | Raise _ => false
  end.

(** [Fernet(key).encrypt(data)] and [Fernet(key).decrypt(token)] *)
Definition encrypt_with (k : pyval) (e : entropy) (data : bytes) : bytes :=
  seal (raw_key k) e data.
Definition decrypt_with (k : pyval) (token : bytes) : option bytes :=
  unseal (raw_key k) token.

Definition Fernet_encrypt (f : Fernet) (e : entropy) (data : bytes)
  : bytes :=
  encrypt_with (key f) e data.

Definition Fernet_decrypt (f : Fernet) (token : bytes) : result bytes :=
  match decrypt_with (key f) token with
  | Some data => Ok data
  | None => Raise InvalidToken
  end.

(** A [MultiFernet] object holds a non-empty list of [Fernet]s. *)
Record MultiFernet : Type := mkMultiFernet { fernets : list Fernet }.

Definition MultiFernet_new (fs : list Fernet) : result MultiFernet :=
  match fs with
  | [] => Raise ValueError
  | _ :: _ => Ok (mkMultiFernet fs)
  end.

(** [self._fernets[0].encrypt(msg)] *)
Definition MultiFernet_encrypt (m : MultiFernet) (e : entropy)
    (msg : bytes) : result bytes :=
  match fernets m !! 0%nat with
  | Some f => Ok (Fernet_encrypt f e msg)
  | None => Raise IndexError
  end.

(** The loop of [MultiFernet.decrypt]: return the first success, pass
    over [InvalidToken], raise [InvalidToken] when the list is done. *)
Fixpoint decrypt_loop (fs : list Fernet) (msg : bytes) : result bytes :=
  match fs with
  | [] => Raise InvalidToken
  | f :: fs' =>
      match Fernet_decrypt f msg with
      | Ok data => Ok data
      | Raise InvalidToken => decrypt_loop fs' msg
      | Raise e => Raise e
      end
  end.

Definition MultiFernet_decrypt (m : MultiFernet) (msg : bytes)
  : result bytes :=
  decrypt_loop (fernets m) msg.

(** What [EncryptedField.fernet] holds: one or the other. *)
Inductive cipher : Type :=
  | Single (f : Fernet)
  | Multi (m : MultiFernet).

Definition encrypt (c : cipher) (e : entropy) (data : bytes)
  : result bytes :=
  match c with
  | Single f => Ok (Fernet_encrypt f e data)
  | Multi m => MultiFernet_encrypt m e data
  end.

Definition decrypt (c : cipher) (token : bytes) : result bytes :=
  match c with
  | Single f => Fernet_decrypt f token
  | Multi m => MultiFernet_decrypt m token
  end.

End classes.

End fernet.

(** ** The sibling module [hkdf] *)

Module hkdf.

(** [hkdf.derive_fernet_key(input_key)]: the module is not part of the
    sources at hand, its one function is taken as an operation. *)
Class Derivation : Type :=
  { derive_fernet_key : pyval -> pyval }.

End hkdf.

(** ** django.conf.settings *)

Record Settings : Type := mkSettings
  { SECRET_KEY : pyval;
    (* absent, or set to [None]: [None] *)
    FERNET_KEYS : option (list pyval);
    (* absent: [None] *)
    FERNET_USE_HKDF : option pyval }.

(** ** fields.py: EncryptedField *)

(** ["... '%s' ..." % self.name] *)
Definition percent_s (n : option string) : string :=
  match n with
  | Some s => s
  | None => "None"
  end.

Module EncryptedField.

Section methods.
Context `{!fernet.Primitive} `{!hkdf.Derivation}.
Context (base : models.FieldClass) (settings : Settings).

Definition __init__ (args : list pyval) (kwargs : gmap string pyval)
    (c : models.counters) : result (models.Field * models.counters) :=
  if truthy (kwargs_get kwargs "primary_key") then
    Raise (ImproperlyConfigured
             "EncryptedField does not support primary_key=True.")
  else if truthy (kwargs_get kwargs "unique") then
    Raise (ImproperlyConfigured
             "EncryptedField does not support unique=True.")
  else if truthy (kwargs_get kwargs "db_index") then
    Raise (ImproperlyConfigured
             "EncryptedField does not support db_index=True.")
  else models.__init__ args kwargs c.

Definition keys : list pyval :=
  match FERNET_KEYS settings with
  | None => [SECRET_KEY settings]
  | Some ks => ks
  end.

Definition fernet_keys : list pyval :=
  if truthy (default (PBool true) (FERNET_USE_HKDF settings))
  then map hkdf.derive_fernet_key keys
  else keys.

Definition fernet : result fernet.cipher :=
  if (length fernet_keys =? 1)%nat then
    match fernet_keys !! 0%nat with
    | Some k => fernet.Single <$> fernet.Fernet_new k
    | None => Raise IndexError
    end
  else
    fs ← comprehension fernet.Fernet_new fernet_keys;
    fernet.Multi <$> fernet.MultiFernet_new fs.

Definition get_internal_type : string := "BinaryField".

Definition get_db_prep_save (e : fernet.entropy) (value : pyval)
  : result dbval :=
  value ← models.get_db_prep_save base value;
  if negb (is_None value) then
    f ← fernet;
    retval ← fernet.encrypt f e (encoding.force_bytes value);
    Ok (Binary retval)
  else Ok NULL.

Definition get_prep_lookup (self : models.Field) (lookup_type : string)
    (value : rhs) : result rhs :=
  Raise (FieldError
           ("Encrypted field '" ++ percent_s (models.name self)
            ++ "' does not support lookups.")%string).

Definition from_db_value (value : dbval) : result pyval :=
  match value with
  | Binary value =>
      f ← fernet;
      data ← fernet.decrypt f value;
      text ← encoding.force_text (PBytes data);
      models.to_python base text
  | NULL => Ok PNone
  end.

End methods.

End EncryptedField.

(** ** fields.py: NO_VALUE and DualFieldDescriptor *)

(** [NO_VALUE = object()]: one object, told apart by identity. *)
Definition NO_VALUE : pyval := PObject 1.

Module DualFieldDescriptor.

Record t : Type := mk { encrypted_field_attname : string }.

Definition __init__ (encrypted_field_attname : string) : t :=
  mk encrypted_field_attname.

Definition __get__ (self : t) (obj : gmap string pyval) : result pyval :=
  getattr obj (encrypted_field_attname self).

Definition __set__ (self : t) (obj : gmap string pyval) (value : pyval)
  : gmap string pyval :=
  if negb (bool_decide (value = NO_VALUE))
  then setattr obj (encrypted_field_attname self) value
  else obj.

End DualFieldDescriptor.

(** ** fields.py: DualField *)

Module DualField.

(** A dual field: the public field (the hash column) and the hidden
    encrypted field it creates. *)
Record t : Type := mk
  { field : models.Field;
    encrypted_field : models.Field }.

Section methods.
Context `{!fernet.Primitive} `{!hkdf.Derivation}.
Context (base : models.FieldClass) (settings : Settings).

Definition __init__ (args : list pyval) (kwargs : gmap string pyval)
    (c : models.counters) : result (t * models.counters) :=
  if truthy (kwargs_get kwargs "primary_key") then
    Raise (ImproperlyConfigured
             "DualField does not support primary_key=True.")
  else
    '(self, c) ← models.__init__ args kwargs c;
    '(enc, c) ← EncryptedField.__init__ []
                  {[ "editable" := PBool false;
                     "null" := models.null self ]} c;
    Ok (mk self (models.with_creation_counter enc (-1)), c).

(** The names set up by [contribute_to_class(cls, name)] and the
    descriptor it installs on the class under [name]. *)
Definition contribute_to_class (self : t) (name : string)
  : result (t * DualFieldDescriptor.t) :=
  let field := models.set_attributes_from_name (field self) name in
  let encrypted_field_name := (name ++ "_encrypted")%string in
  let enc := models.set_attributes_from_name (encrypted_field self)
               encrypted_field_name in
  match models.attname enc with
  | Some a => Ok (mk field enc, DualFieldDescriptor.__init__ a)
  | None => Raise AttributeError
  end.

Definition get_internal_type : string := "BinaryField".

Definition _hash_value (val : pyval) : bytes :=
  hashlib.sha256 (encoding.force_bytes val).

Definition get_db_prep_value (prepared : bool) (value : pyval)
  : result dbval :=
  value ← models.get_db_prep_value base prepared value;
  if negb (is_None value) then Ok (Binary (_hash_value value))
  else Ok NULL.

Definition pre_save (self : t) (instance : gmap string pyval)
  : result pyval :=
  models.value_from_object (encrypted_field self) instance.

Definition get_prep_lookup (self : t) (lookup_type : string)
    (value : rhs) : result rhs :=
  if negb (bool_decide (lookup_type ∈ ["exact"; "in"; "isnull"])) then
    Raise (FieldError
             ("DualField '" ++ percent_s (models.name (field self))
              ++ "' supports only exact, in, and isnull lookups.")%string)
  else models.get_prep_lookup base lookup_type value.

Definition from_db_value (value : dbval) : pyval := NO_VALUE.

End methods.

End DualField.

(** ** Saving and loading an instance with one dual attribute

    What Django's persistence layer does with the two fields of a dual
    attribute: on save every field contributes
    [get_db_prep_save(pre_save(instance))]; on load every cell goes through
    its field's [from_db_value] and the results are assigned to the
    attribute names in field order, the hidden encrypted field (creation
    counter -1) before the dual field, whose name is bound to the
    descriptor. *)

Module Model.

Section dual.
Context `{!fernet.Primitive} `{!hkdf.Derivation}.
Context (base : models.FieldClass) (settings : Settings).
Context (d : DualField.t) (descriptor : DualFieldDescriptor.t).

(** The cell of the hidden encrypted column; its [pre_save] is
    [Field.pre_save], that is [getattr(instance, self.attname)]. *)
Definition save_encrypted_cell (e : fernet.entropy)
    (instance : gmap string pyval) : result dbval :=
  value ← models.value_from_object (DualField.encrypted_field d) instance;
  EncryptedField.get_db_prep_save base settings e value.

(** The cell of the hash column; [Field.get_db_prep_save] calls
    [get_db_prep_value] with [prepared=False]. *)
Definition save_hash_cell (instance : gmap string pyval) : result dbval :=
  value ← DualField.pre_save d instance;
  DualField.get_db_prep_value base false value.

(** [instance.<name> = value] for each value in turn. *)
Definition assign_all (instance : gmap string pyval) (values : list pyval)
  : gmap string pyval :=
  fold_left (DualFieldDescriptor.__set__ descriptor) values instance.

(** Loading a row [(encrypted cell, hash cell)]. *)
Definition from_db (encrypted_cell hash_cell : dbval)
  : result (gmap string pyval) :=
  plain ← EncryptedField.from_db_value base settings encrypted_cell;
  let loaded := DualField.from_db_value hash_cell in
  match models.attname (DualField.encrypted_field d) with
  | Some a =>
      Ok (DualFieldDescriptor.__set__ descriptor (setattr ∅ a plain)
            loaded)
  | None => Raise AttributeError
  end.

End dual.

End Model.

(** ** What the proofs need from the collaborators *)

(** Fernet is correct, and a token is authenticated under the signing
    half of the key material it was sealed under and no other.  (What a
    key with the same signing half and another encryption half makes of a
    token is left open: it is a matter of padding.) *)
Class FernetLaws `{!fernet.Primitive} : Prop :=
  { decrypt_encrypt : forall k e data,
      fernet.key_ok k = true ->
      fernet.decrypt_with k (fernet.encrypt_with k e data) = Some data;
    decrypt_other_key : forall k k' e data,
      fernet.key_ok k = true -> fernet.key_ok k' = true ->
      fernet.signing_key k' <> fernet.signing_key k ->
      fernet.decrypt_with k' (fernet.encrypt_with k e data) = None }.

(** A derived key is a key [Fernet] accepts. *)
Class HkdfLaws `{!fernet.Primitive} `{!hkdf.Derivation} : Prop :=
  { derived_key_ok : forall secret,
      fernet.key_ok (hkdf.derive_fernet_key secret) = true }.

(** A field class propagates [None] and nothing else to [None] when it
    prepares a value for the database. *)
Definition propagates_None (base : models.FieldClass) : Prop :=
  forall prepared,
    models.get_db_prep_value base prepared PNone = Ok PNone /\
    forall v v', v <> PNone ->
      models.get_db_prep_value base prepared v = Ok v' -> v' <> PNone.

(** [v] is a supported logical value of a field class: preparing [v] for
    the database succeeds, and [to_python] reads [v] back from the text of
    the prepared value's bytes. *)
Definition supported (base : models.FieldClass) (v : pyval) : Prop :=
  exists p,
    models.get_db_prep_save base v = Ok p /\
    (p = PNone <-> v = PNone) /\
    (v <> PNone ->
     (text ← encoding.force_text (PBytes (encoding.force_bytes p));
      models.to_python base text) = Ok v).

(** Multi-key decryption in the specification's words: try each key in
    list order and return the first success.  The code's [fernet.decrypt]
    is compared with it below. *)
Fixpoint spec_first_success `{!fernet.Primitive} (ks : list pyval)
    (token : bytes) : option bytes :=
  match ks with
  | [] => None
  | k :: ks' =>
      match fernet.decrypt_with k token with
      | Some data => Some data
      | None => spec_first_success ks' token
      end
  end.

(** The outcome of a decryption: the data, or [InvalidToken]. *)
Definition result_of_option (o : option bytes) : result bytes :=
  match o with
  | Some data => Ok data
  | None => Raise InvalidToken
  end.

(** Every key of the list is one [Fernet] accepts. *)
Definition accepted `{!fernet.Primitive} (ks : list pyval) : Prop :=
  Forall (fun k => fernet.key_ok k = true) ks.


(** [k'] is the key [k]: the same key material, whether it is given as
    text or as bytes, in this base64 spelling or another. *)
Definition same_key `{!fernet.Primitive} (k k' : pyval) : Prop :=
  fernet.raw_key k' = fernet.raw_key k.

(** The key list contains the key [k]. *)
Definition has_key `{!fernet.Primitive} (ks : list pyval) (k : pyval)
  : Prop :=
  Exists (same_key k) ks.

(** No key of the list shares its signing half with [k] and is another
    key. *)
Definition tells_apart `{!fernet.Primitive} (ks : list pyval) (k : pyval)
  : Prop :=
  Forall (fun k' => fernet.signing_key k' = fernet.signing_key k ->
                    same_key k k') ks.

(** The exception of [Fernet(k)] for a key it does not accept. *)
Definition key_error (k : pyval) : exn :=
  if is_text_or_bytes k then ValueError else TypeError.

(** ** A reference instance of the collaborators

    An idealised Fernet: a token is the version byte, the time, the IV,
    the key material it was sealed under and the data; it opens under that
    key material only.  The stand-in for base64 reads 44 bytes of key text
    as their first 32, so that, as with base64, several spellings stand
    for one key. *)

Module reference.

Definition b64decode (b : bytes) : option bytes :=
  if (length b =? 44)%nat then Some (take 32 b) else None.

Definition seal (raw : bytes) (e : fernet.entropy) (data : bytes) : bytes :=
  x80 :: hashlib.be64 (fernet.current_time e)
      ++ take 16 (fernet.iv e ++ repeat x00 16)
      ++ raw ++ data.

Definition unseal (raw : bytes) (token : bytes) : option bytes :=
  match token with
  | x80 :: rest =>
      if bool_decide (take 32 (drop 24 rest) = raw) && (length raw =? 32)%nat
         && (56 <=? length rest)%nat
      then Some (drop 56 rest) else None
  | _ => None
  end.

#[export] Instance primitive : fernet.Primitive :=
  {| fernet.b64decode := b64decode;
     fernet.seal := seal;
     fernet.unseal := unseal |}.

(** A stand-in for HKDF: 44 characters of the hexadecimal SHA-256 digest
    of the secret. *)
Definition derive_fernet_key (secret : pyval) : pyval :=
  PBytes (take 44 (list_byte_of_string
                     (hashlib.hex (hashlib.sha256
                                     (encoding.force_bytes secret))))).

#[export] Instance derivation : hkdf.Derivation :=
  {| hkdf.derive_fernet_key := derive_fernet_key |}.

Definition entropy0 : fernet.entropy :=
  fernet.Entropy 1478131200 (repeat x2a 16).

Definition settings_default : Settings :=
  mkSettings (PStr "django-insecure-secret") None None.

(** Two configured keys, newest first, key derivation switched on. *)
Definition settings_rotated : Settings :=
  mkSettings (PStr "django-insecure-secret")
             (Some [PStr "secret-v2"; PStr "secret-v1"]) (Some (PBool true)).

(** The configuration before the rotation. *)
Definition settings_old : Settings :=
  mkSettings (PStr "django-insecure-secret")
             (Some [PStr "secret-v1"]) (Some (PBool true)).


(** A nullable dual attribute [ssn] declared on a model class. *)
Definition declared : result (DualField.t * DualFieldDescriptor.t) :=
  '(d, _) ← DualField.__init__ [] {[ "null" := PBool true ]}
              models.initial_counters;
  DualField.contribute_to_class d "ssn".

(** What that declaration yields. *)
Definition ssn_field : DualField.t :=
  DualField.mk
    (models.mkField {[ "null" := PBool true ]} 0 (Some "ssn") (Some "ssn"))
    (models.mkField {[ "editable" := PBool false; "null" := PBool true ]}
       (-1) (Some "ssn_encrypted") (Some "ssn_encrypted")).

Definition ssn_descriptor : DualFieldDescriptor.t :=
  DualFieldDescriptor.mk "ssn_encrypted".

End reference.

(** * Properties *)

(** ** Auxiliary facts about the collaborators *)

Lemma sha256_length (msg : bytes) : length (hashlib.sha256 msg) = 32%nat.
Proof. unfold hashlib.sha256, hashlib.digest_of. reflexivity. Qed.

Lemma be64_length (x : Z) : length (hashlib.be64 x) = 8%nat.
Proof. reflexivity. Qed.

(** One step of the error monad, leaving the operands folded. *)
Ltac step_bind :=
  cbn [mbind result_bind fmap result_fmap mret result_ret] in *.

(** Membership of a literal keyword in a literal list. *)
Ltac known_keyword :=
  unfold models.parameters;
  repeat first [ apply list_elem_of_here | apply list_elem_of_further ].

(** Binding keyword arguments only: every known keyword is accepted. *)
Lemma bind_arguments_kwargs (kwargs : gmap string pyval) :
  map_Forall (fun k _ => k ∈ models.parameters) kwargs ->
  models.bind_arguments [] kwargs = Ok kwargs.
Proof.
  intros Hk. unfold models.bind_arguments. simpl.
  rewrite bool_decide_eq_true_2.
  - f_equal. apply (right_id_L ∅ (∪)).
  - intros k v Hkv. split; [exact (Hk k v Hkv) | apply lookup_empty].
Qed.

Lemma models_init_kwargs (kwargs : gmap string pyval) (c : models.counters) :
  map_Forall (fun k _ => k ∈ models.parameters) kwargs ->
  exists f c', models.__init__ [] kwargs c = Ok (f, c') /\
               models.init_args f = kwargs.
Proof.
  intros Hk. unfold models.__init__.
  rewrite (bind_arguments_kwargs kwargs Hk). simpl.
  destruct (truthy _); eexists _, _; split; reflexivity.
Qed.


(** ** Construction-time checks *)

Lemma EncryptedField_init_passes args kwargs c :
  truthy (kwargs_get kwargs "primary_key") = false ->
  truthy (kwargs_get kwargs "unique") = false ->
  truthy (kwargs_get kwargs "db_index") = false ->
  EncryptedField.__init__ args kwargs c = models.__init__ args kwargs c.
Proof. unfold EncryptedField.__init__. intros -> -> ->. reflexivity. Qed.

(** The call [encrypted_field_class(editable=False, null=self.null)]. *)
Lemma hidden_field_init (v : pyval) (c : models.counters) :
  exists enc c',
    EncryptedField.__init__ [] {[ "editable" := PBool false; "null" := v ]} c
    = Ok (enc, c') /\
    models.init_args enc = {[ "editable" := PBool false; "null" := v ]}.
Proof.
  rewrite EncryptedField_init_passes by reflexivity.
  apply models_init_kwargs.
  apply map_Forall_insert_2; [|apply map_Forall_singleton]; known_keyword.
Qed.

Lemma DualField_init_kwargs (kwargs : gmap string pyval) (c : models.counters) :
  truthy (kwargs_get kwargs "primary_key") = false ->
  map_Forall (fun k _ => k ∈ models.parameters) kwargs ->
  exists d c',
    DualField.__init__ [] kwargs c = Ok (d, c') /\
    models.init_args (DualField.field d) = kwargs /\
    models.init_args (DualField.encrypted_field d)
    = {[ "editable" := PBool false;
         "null" := default (PBool false) (kwargs !! "null") ]}.
Proof.
  intros Hpk Hk. unfold DualField.__init__. rewrite Hpk.
  destruct (models_init_kwargs kwargs c Hk) as (self & c1 & -> & Hargs).
  step_bind.
  destruct (hidden_field_init (models.null self) c1) as (enc & c2 & -> & Hea).
  step_bind.
  exists (DualField.mk self (models.with_creation_counter enc (-1))), c2.
  simpl. rewrite Hea. unfold models.null, models.attribute. rewrite Hargs.
  repeat split; reflexivity.
Qed.



(** The hidden encrypted field of a constructed [DualField] has creation
    counter -1, whatever the class counters were; the public field has the
    counter [Field.__init__] handed out, which is not negative for a field
    that is not auto-created once the class counter is not negative. *)
Lemma DualField_init_counters args kwargs c d c' :
  DualField.__init__ args kwargs c = Ok (d, c') ->
  models.creation_counter (DualField.encrypted_field d) = -1 /\
  (truthy (kwargs_get kwargs "auto_created") = false ->
   args = [] ->
   models.creation_counter (DualField.field d) = models.Field_creation_counter c).
Proof.
  unfold DualField.__init__.
  destruct (truthy (kwargs_get kwargs "primary_key")); [discriminate|].
  destruct (models.__init__ args kwargs c) as [[self c1]|e] eqn:E;
    step_bind; [|discriminate].
  destruct (EncryptedField.__init__ _ _ c1) as [[enc c2]|e]; step_bind;
    [|discriminate].
  intros [= <- <-]. split; [reflexivity|].
  intros Hauto ->. simpl.
  unfold models.__init__, models.bind_arguments in E. simpl in E.
  destruct (bool_decide _); step_bind; [|discriminate].
  replace (kwargs ∪ ∅) with kwargs in E by (symmetry; apply (right_id_L ∅ (∪))).
  unfold kwargs_get in Hauto.
  destruct (kwargs !! "auto_created") as [v|] eqn:Ha; simpl in *.
  - rewrite Hauto in E. injection E as <- <-. reflexivity.
  - injection E as <- <-. reflexivity.
Qed.

(** C9, evaluated.  Two dual fields declared one after the other: both
    hidden encrypted fields carry creation counter -1, so neither is
    strictly lower than the other, and an auto-created field made by
    [Field.__init__] from the initial class counters has -1 as well; each
    hidden field is lower than both public fields. *)
Lemma two_DualFields_share_hidden_counter :
  exists d1 c1 d2 c2 auto c3,
    DualField.__init__ [] ∅ models.initial_counters = Ok (d1, c1) /\
    DualField.__init__ [] ∅ c1 = Ok (d2, c2) /\
    models.__init__ [] {[ "auto_created" := PBool true ]}
      models.initial_counters = Ok (auto, c3) /\
    models.creation_counter (DualField.encrypted_field d1) = -1 /\
    models.creation_counter (DualField.encrypted_field d2) = -1 /\
    models.creation_counter auto = -1 /\
    ~ (models.creation_counter (DualField.encrypted_field d1)
       < models.creation_counter (DualField.encrypted_field d2)) /\
    ~ (models.creation_counter (DualField.encrypted_field d1)
       < models.creation_counter auto) /\
    models.creation_counter (DualField.field d1) = 0 /\
    models.creation_counter (DualField.field d2) = 2.
Proof.
  destruct (DualField_init_kwargs ∅ models.initial_counters)
    as (d1 & c1 & E1 & _); [reflexivity | apply map_Forall_empty |].
  destruct (DualField_init_kwargs ∅ c1)
    as (d2 & c2 & E2 & _); [reflexivity | apply map_Forall_empty |].
  destruct (models.__init__ [] {[ "auto_created" := PBool true ]}
              models.initial_counters) as [[auto c3]|e] eqn:E3;
    [|vm_compute in E3; discriminate E3].
  exists d1, c1, d2, c2, auto, c3.
  destruct (DualField_init_counters _ _ _ _ _ E1) as [Ha1 Hb1].
  destruct (DualField_init_counters _ _ _ _ _ E2) as [Ha2 Hb2].
  assert (Hauto : models.creation_counter auto = -1).
  { revert E3. vm_compute. intros [= <- _]. reflexivity. }
  rewrite Ha1, Ha2, Hb1, Hb2, Hauto by reflexivity.
  assert (Hc1 : c1 = models.Counters 2 (-1)).
  { revert E1. vm_compute. intros [= _ <-]. reflexivity. }
  subst c1. repeat split; try assumption; try reflexivity; lia.
Qed.

(** ** Lookups *)

(** [int()] raises [ValueError] or [TypeError] and nothing else. *)
Lemma int_exception (v : pyval) (e : exn) :
  encoding.int v = Raise e -> e = ValueError \/ e = TypeError.
Proof.
  destruct v as [|b|z|s|b|a]; simpl; try discriminate;
    try (intros [= <-]; auto).
  - destruct (_ ≫= _); [discriminate | intros [= <-]; auto].
  - destruct (encoding.parse_int _); [discriminate | intros [= <-]; auto].
Qed.

(** An integer field prepares a value with [int()]. *)
Lemma integer_get_prep_value_int (v : pyval) :
  v <> PNone ->
  models.integer_get_prep_value v = PInt <$> encoding.int v.
Proof. destruct v; try reflexivity. congruence. Qed.

Lemma Field_get_prep_lookup_no_FieldError gpv lookup_type value msg :
  (forall v, gpv v <> Raise (FieldError msg)) ->
  models.Field_get_prep_lookup gpv lookup_type value <> Raise (FieldError msg).
Proof.
  intros Hgpv. unfold models.Field_get_prep_lookup.
  assert (Hc : forall vs, comprehension gpv vs <> Raise (FieldError msg)).
  { induction vs as [|v vs IH]; simpl; [discriminate|].
    specialize (Hgpv v). destruct (gpv v) as [y|e]; step_bind.
    - destruct (comprehension gpv vs); step_bind; [discriminate|].
      intros [= ->]. apply IH. reflexivity.
    - intros [= ->]. apply Hgpv. reflexivity. }
  destruct (bool_decide _); [discriminate|].
  destruct (bool_decide _).
  - destruct value as [v|vs]; [discriminate|]. specialize (Hc vs).
    destruct (comprehension gpv vs); step_bind; [discriminate|].
    intros [= ->]. apply Hc. reflexivity.
  - destruct value as [v|vs]; [|discriminate].
    destruct (bool_decide _).
    + destruct (encoding.int v) as [z|e] eqn:E; [discriminate|].
      intros [= ->]. apply int_exception in E. destruct E; discriminate.
    + specialize (Hgpv v). destruct (gpv v); step_bind; [discriminate|].
      intros [= ->]. apply Hgpv. reflexivity.
Qed.

(** The stock classes answer no lookup with a [FieldError]. *)
Lemma stock_get_prep_lookup_no_FieldError base lookup_type value msg :
  base ∈ [models.Field_class; models.TextField; models.IntegerField] ->
  models.get_prep_lookup base lookup_type value <> Raise (FieldError msg).
Proof.
  intros Hb.
  repeat (apply elem_of_cons in Hb as [->|Hb];
          [apply Field_get_prep_lookup_no_FieldError; intros v|]).
  - discriminate.
  - destruct v as [|b|z|s|b|a]; simpl; try discriminate.
    destruct (encoding.utf8_valid b); discriminate.
  - destruct (decide (v = PNone)) as [->|Hv]; [discriminate|].
    rewrite (integer_get_prep_value_int v Hv).
    destruct (encoding.int v) as [z|e] eqn:E; step_bind; [discriminate|].
    intros [= ->]. apply int_exception in E. destruct E; discriminate.
  - apply elem_of_nil in Hb. contradiction.
Qed.

(** C5. [EncryptedField.get_prep_lookup] raises [FieldError] for every
    lookup type and value.  [DualField.get_prep_lookup] hands the three
    lookup types [exact], [in] and [isnull] to the base class and raises
    [FieldError] for every other lookup type; over the stock base classes
    it raises [FieldError] for exactly the other lookup types. *)
Theorem lookups_permitted
    (base : models.FieldClass) (f : models.Field) (d : DualField.t)
    (lookup_type : string) (value : rhs) :
  (exists msg,
     EncryptedField.get_prep_lookup f lookup_type value
     = Raise (FieldError msg))
  /\
  (lookup_type ∈ ["exact"; "in"; "isnull"] ->
   DualField.get_prep_lookup base d lookup_type value
   = models.get_prep_lookup base lookup_type value)
  /\
  (lookup_type ∉ ["exact"; "in"; "isnull"] ->
   exists msg,
     DualField.get_prep_lookup base d lookup_type value
     = Raise (FieldError msg))
  /\
  (base ∈ [models.Field_class; models.TextField; models.IntegerField] ->
   ((exists msg,
       DualField.get_prep_lookup base d lookup_type value
       = Raise (FieldError msg))
    <-> lookup_type ∉ ["exact"; "in"; "isnull"])).
Proof.
  split; [unfold EncryptedField.get_prep_lookup; eauto|].
  assert (Hin : lookup_type ∈ ["exact"; "in"; "isnull"] ->
                DualField.get_prep_lookup base d lookup_type value
                = models.get_prep_lookup base lookup_type value).
  { intros Hl. unfold DualField.get_prep_lookup.
    rewrite bool_decide_eq_true_2 by exact Hl. reflexivity. }
  assert (Hout : lookup_type ∉ ["exact"; "in"; "isnull"] ->
                 exists msg,
                   DualField.get_prep_lookup base d lookup_type value
                   = Raise (FieldError msg)).
  { intros Hl. unfold DualField.get_prep_lookup.
    rewrite bool_decide_eq_false_2 by exact Hl. simpl. eauto. }
  split; [exact Hin|]. split; [exact Hout|].
  intros Hbase. split; [|exact Hout].
  intros [msg Hmsg] Hl. rewrite (Hin Hl) in Hmsg.
  exact (stock_get_prep_lookup_no_FieldError _ _ _ _ Hbase Hmsg).
Qed.

(** ** Keys and ciphers *)

Section keys_and_ciphers.
Context `{!fernet.Primitive} `{!hkdf.Derivation}.

(** C8. With [FERNET_USE_HKDF] absent or true every configured secret
    goes through [hkdf.derive_fernet_key], position by position; with
    the flag false the configured secrets are the keys. *)
Theorem fernet_keys_follow_flag
    (secret_key : pyval) (configured : option (list pyval)) :
  let absent := mkSettings secret_key configured None in
  let on := mkSettings secret_key configured (Some (PBool true)) in
  let off := mkSettings secret_key configured (Some (PBool false)) in
  EncryptedField.fernet_keys absent
    = map hkdf.derive_fernet_key (EncryptedField.keys absent) /\
  EncryptedField.fernet_keys on
    = map hkdf.derive_fernet_key (EncryptedField.keys on) /\
  (forall i : nat,
     EncryptedField.fernet_keys on !! i
     = hkdf.derive_fernet_key <$> EncryptedField.keys on !! i) /\
  (forall i : nat,
     EncryptedField.fernet_keys absent !! i
     = hkdf.derive_fernet_key <$> EncryptedField.keys absent !! i) /\
  length (EncryptedField.fernet_keys on) = length (EncryptedField.keys on) /\
  EncryptedField.fernet_keys off = EncryptedField.keys off /\
  (forall flag,
     EncryptedField.fernet_keys (mkSettings secret_key configured (Some flag))
     = if truthy flag
       then map hkdf.derive_fernet_key (EncryptedField.keys on)
       else EncryptedField.keys off).
Proof.
  intros absent on off. unfold EncryptedField.fernet_keys. simpl.
  repeat split; try reflexivity.
  - intros i. apply list_lookup_fmap.
  - intros i. apply list_lookup_fmap.
  - apply length_map.
Qed.

Lemma keys_nonempty (st : Settings) :
  (forall ks, FERNET_KEYS st = Some ks -> ks <> []) ->
  EncryptedField.keys st <> [].
Proof.
  intros Hg. unfold EncryptedField.keys.
  destruct (FERNET_KEYS st) as [ks|]; [apply Hg; reflexivity | discriminate].
Qed.

Lemma fernet_keys_length (st : Settings) :
  length (EncryptedField.fernet_keys st) = length (EncryptedField.keys st).
Proof.
  unfold EncryptedField.fernet_keys.
  destruct (truthy _); [apply length_map | reflexivity].
Qed.

(** [Fernet(k)] returns the cipher of [k], or raises [ValueError] for
    text and bytes and [TypeError] for anything else. *)
Lemma Fernet_new_cases (k : pyval) :
  (fernet.key_ok k = true /\ fernet.Fernet_new k = Ok (fernet.mkFernet k)) \/
  (fernet.key_ok k = false /\ fernet.Fernet_new k = Raise (key_error k)).
Proof.
  unfold fernet.key_ok, fernet.Fernet_new, fernet.urlsafe_b64decode,
    key_error.
  destruct k as [| | |t|b|]; simpl; try (right; split; reflexivity).
  - destruct (forallb _ _); simpl; [|right; split; reflexivity].
    destruct (fernet.b64decode _) as [raw|]; simpl;
      [|right; split; reflexivity].
    destruct (length raw =? 32)%nat; [left | right]; split; reflexivity.
  - destruct (fernet.b64decode b) as [raw|]; simpl;
      [|right; split; reflexivity].
    destruct (length raw =? 32)%nat; [left | right]; split; reflexivity.
Qed.

Lemma Fernet_new_Ok (k : pyval) :
  fernet.key_ok k = true -> fernet.Fernet_new k = Ok (fernet.mkFernet k).
Proof.
  intros Hk. destruct (Fernet_new_cases k) as [[_ E]|[E _]];
    [exact E | congruence].
Qed.

Lemma Fernet_new_Raise (k : pyval) :
  fernet.key_ok k = false -> fernet.Fernet_new k = Raise (key_error k).
Proof.
  intros Hk. destruct (Fernet_new_cases k) as [[E _]|[_ E]];
    [congruence | exact E].
Qed.

Lemma key_error_cases (k : pyval) :
  key_error k = ValueError \/ key_error k = TypeError.
Proof. unfold key_error. destruct (is_text_or_bytes k); auto. Qed.

Lemma comprehension_Fernet_new_Ok (ks : list pyval) :
  accepted ks ->
  comprehension fernet.Fernet_new ks = Ok (map fernet.mkFernet ks).
Proof.
  induction 1 as [|k ks Hk _ IH]; simpl; [reflexivity|].
  rewrite (Fernet_new_Ok k Hk). step_bind. rewrite IH. reflexivity.
Qed.

(** The comprehension [[Fernet(k) for k in keys]] stops at the first key
    [Fernet] does not accept, with the exception of that key. *)
Lemma comprehension_Fernet_new_stops (pre : list pyval) k post :
  accepted pre -> fernet.key_ok k = false ->
  comprehension fernet.Fernet_new (pre ++ k :: post) = Raise (key_error k).
Proof.
  intros Hpre Hk. induction Hpre as [|k0 pre Hk0 _ IH]; simpl.
  - rewrite (Fernet_new_Raise k Hk). reflexivity.
  - rewrite (Fernet_new_Ok k0 Hk0). step_bind. rewrite IH. reflexivity.
Qed.

(** A key list is accepted, or it has a first key that is not. *)
Lemma accepted_or_first_refused (ks : list pyval) :
  accepted ks \/
  exists pre k post,
    ks = pre ++ k :: post /\ accepted pre /\ fernet.key_ok k = false.
Proof.
  induction ks as [|k ks IH]; [left; constructor|].
  destruct (fernet.key_ok k) eqn:Hk.
  - destruct IH as [Hks|(pre & k' & post & -> & Hpre & Hk')].
    + left. apply Forall_cons. split; assumption.
    + right. exists (k :: pre), k', post. repeat split; [|exact Hk'].
      apply Forall_cons. split; assumption.
  - right. exists [], k, ks. repeat split; [constructor | exact Hk].
Qed.

Lemma comprehension_Fernet_new_error (ks : list pyval) (e : exn) :
  comprehension fernet.Fernet_new ks = Raise e ->
  e = ValueError \/ e = TypeError.
Proof.
  intros E. destruct (accepted_or_first_refused ks)
    as [Hks|(pre & k & post & -> & Hpre & Hk)].
  - rewrite (comprehension_Fernet_new_Ok ks Hks) in E. discriminate.
  - rewrite (comprehension_Fernet_new_stops pre k post Hpre Hk) in E.
    injection E as <-. apply key_error_cases.
Qed.

(** Building the cipher never fails on an index. *)
Lemma fernet_no_IndexError (st : Settings) :
  EncryptedField.fernet st <> Raise IndexError.
Proof.
  unfold EncryptedField.fernet.
  destruct (length (EncryptedField.fernet_keys st) =? 1)%nat eqn:L.
  - destruct (EncryptedField.fernet_keys st !! 0%nat) as [k|] eqn:E0.
    + simpl. destruct (Fernet_new_cases k) as [[_ ->]|[_ ->]];
        [discriminate|].
      simpl. destruct (key_error_cases k) as [-> | ->]; discriminate.
    + apply lookup_ge_None in E0. apply Nat.eqb_eq in L. lia.
  - destruct (comprehension fernet.Fernet_new (EncryptedField.fernet_keys st))
      as [fs|e] eqn:C; step_bind.
    + destruct fs; simpl; discriminate.
    + intros [= ->]. apply comprehension_Fernet_new_error in C.
      destruct C; discriminate.
Qed.

(** C10. Without [FERNET_KEYS] the key list is [[SECRET_KEY]]; if
    [FERNET_KEYS], when given, is not empty, then the key list and the
    list of cipher keys are not empty, the list of cipher keys has a
    first element, and building the cipher raises no [IndexError]. *)
Theorem keys_default_nonempty (st : Settings)
    (Hgiven : forall ks, FERNET_KEYS st = Some ks -> ks <> []) :
  EncryptedField.keys (mkSettings (SECRET_KEY st) None (FERNET_USE_HKDF st))
    = [SECRET_KEY st] /\
  EncryptedField.keys st <> [] /\
  EncryptedField.fernet_keys st <> [] /\
  (exists k, EncryptedField.fernet_keys st !! 0%nat = Some k) /\
  EncryptedField.fernet st <> Raise IndexError.
Proof.
  split; [reflexivity|].
  pose proof (keys_nonempty st Hgiven) as Hk.
  assert (Hf : EncryptedField.fernet_keys st <> []).
  { intros E. apply Hk. apply length_zero_iff_nil.
    rewrite <- fernet_keys_length, E. reflexivity. }
  repeat split; try assumption.
  - destruct (EncryptedField.fernet_keys st) as [|k ks]; [congruence|].
    exists k. reflexivity.
  - apply fernet_no_IndexError.
Qed.

End keys_and_ciphers.

(** ** Multi-key decryption and key rotation *)

Section rotation.
Context `{!fernet.Primitive} `{!hkdf.Derivation}.

(** The loop of [MultiFernet.decrypt] is the specification's
    first-success search. *)
Lemma decrypt_loop_spec (ks : list pyval) (token : bytes) :
  fernet.decrypt_loop (map fernet.mkFernet ks) token
  = result_of_option (spec_first_success ks token).
Proof.
  induction ks as [|k ks IH]; simpl; [reflexivity|].
  unfold fernet.Fernet_decrypt. simpl.
  destruct (fernet.decrypt_with k token); [reflexivity | exact IH].
Qed.



(** The cipher [EncryptedField.fernet] builds from a non-empty list of
    accepted keys, and what its two methods compute. *)
Lemma fernet_built (st : Settings) :
  EncryptedField.fernet_keys st <> [] ->
  accepted (EncryptedField.fernet_keys st) ->
  exists c primary rest,
    EncryptedField.fernet st = Ok c /\
    EncryptedField.fernet_keys st = primary :: rest /\
    (forall e data,
       fernet.encrypt c e data = Ok (fernet.encrypt_with primary e data)) /\
    (forall token,
       fernet.decrypt c token
       = result_of_option
           (spec_first_success (EncryptedField.fernet_keys st) token)).
Proof.
  intros Hne Hok. unfold EncryptedField.fernet.
  destruct (EncryptedField.fernet_keys st) as [|k ks] eqn:E; [congruence|].
  clear Hne. apply Forall_cons in Hok as Hok'. destruct Hok' as [Hk Hks].
  destruct ks as [|k' ks].
  - simpl. rewrite (Fernet_new_Ok k Hk). simpl.
    exists (fernet.Single (fernet.mkFernet k)), k, [].
    repeat split; try reflexivity.
    intros token. simpl. unfold fernet.Fernet_decrypt. simpl.
    destruct (fernet.decrypt_with k token); reflexivity.
  - change (length (k :: k' :: ks) =? 1)%nat with false.
    rewrite (comprehension_Fernet_new_Ok _ Hok). step_bind. simpl.
    exists (fernet.Multi (fernet.mkMultiFernet
                            (map fernet.mkFernet (k :: k' :: ks)))), k,
           (k' :: ks).
    repeat split; try reflexivity.
    intros token. exact (decrypt_loop_spec (k :: k' :: ks) token).
Qed.

Context `{!FernetLaws}.

(** A token sealed under a key opens under that key, however the key is
    spelled. *)
Lemma decrypt_with_same_key k k' e data :
  fernet.key_ok k = true -> same_key k k' ->
  fernet.decrypt_with k' (fernet.encrypt_with k e data) = Some data.
Proof.
  intros Hk Hsame. unfold same_key in Hsame.
  pose proof (decrypt_encrypt k e data Hk) as Hd.
  unfold fernet.decrypt_with in *. rewrite Hsame. exact Hd.
Qed.

(** A token sealed under the first key of a list is opened by the list. *)
Lemma spec_first_success_head k rest e data :
  fernet.key_ok k = true ->
  spec_first_success (k :: rest) (fernet.encrypt_with k e data) = Some data.
Proof. intros Hk. simpl. rewrite (decrypt_encrypt k e data Hk). reflexivity. Qed.


(** Under the laws, a token sealed under [k] is opened by a key list that
    tells [k] apart exactly when the list contains [k]. *)
Lemma spec_first_success_sealed ks k e data :
  accepted ks -> fernet.key_ok k = true -> tells_apart ks k ->
  (has_key ks k ->
   spec_first_success ks (fernet.encrypt_with k e data) = Some data) /\
  (~ has_key ks k ->
   spec_first_success ks (fernet.encrypt_with k e data) = None).
Proof.
  intros Hks Hk Hta. unfold has_key.
  induction Hks as [|k' ks Hk' _ IH]; simpl.
  - split; [intros Hhas; inversion Hhas | reflexivity].
  - apply Forall_cons in Hta as [Hta' Hta].
    destruct (IH Hta) as [IHyes IHno].
    destruct (decide (fernet.signing_key k' = fernet.signing_key k))
      as [Hsig|Hsig].
    + rewrite (decrypt_with_same_key k k' e data Hk (Hta' Hsig)).
      split; [reflexivity|]. intros Hno. exfalso. apply Hno.
      apply Exists_cons_hd. exact (Hta' Hsig).
    + rewrite (decrypt_other_key k k' e data Hk Hk' Hsig). split.
      * intros Hhas. apply Exists_cons in Hhas as [Hsame|Hhas].
        -- exfalso. apply Hsig. unfold fernet.signing_key.
           unfold same_key in Hsame. rewrite Hsame. reflexivity.
        -- exact (IHyes Hhas).
      * intros Hno. apply IHno. intros Hhas. apply Hno.
        apply Exists_cons_tl. exact Hhas.
Qed.

(** A key list none of whose keys has the signing half of [k] does not
    contain [k] and tells it apart. *)
Lemma other_signing_keys ks k :
  Forall (fun k' => fernet.signing_key k' <> fernet.signing_key k) ks ->
  tells_apart ks k /\ ~ has_key ks k.
Proof.
  intros Hall. split.
  - eapply Forall_impl; [exact Hall|]. intros k' Hne Heq. contradiction.
  - unfold has_key. rewrite Exists_exists. intros (k' & Hin & Hsame).
    rewrite Forall_forall in Hall. apply (Hall k' Hin).
    unfold fernet.signing_key. unfold same_key in Hsame.
    rewrite Hsame. reflexivity.
Qed.


End rotation.

(** ** The stock field classes *)

(** Decimal numerals: their characters, and reading them back. *)
Lemma uint_chars (d : Decimal.uint) :
  Forall (fun c => c ∈ list_ascii_of_string "-0123456789")
         (list_ascii_of_string (DecimalString.NilEmpty.string_of_uint d)).
Proof.
  induction d; simpl; constructor; try assumption;
    repeat first [ apply list_elem_of_here | apply list_elem_of_further ].
Qed.

Lemma str_int_chars (z : Z) :
  Forall (fun c => c ∈ list_ascii_of_string "-0123456789")
         (list_ascii_of_string (encoding.str_int z)).
Proof.
  unfold encoding.str_int.
  assert (Hu : forall d,
    Forall (fun c => c ∈ list_ascii_of_string "-0123456789")
      (list_ascii_of_string (DecimalString.NilZero.string_of_uint d))).
  { intros d. pose proof (uint_chars d) as Hd. destruct d; try exact Hd.
    simpl. constructor; [|constructor].
    repeat first [ apply list_elem_of_here | apply list_elem_of_further ]. }
  destruct (Z.to_int z) as [d|d]; simpl.
  - apply Hu.
  - constructor; [apply list_elem_of_here | apply Hu].
Qed.

Ltac each_decimal_char H :=
  simpl in H;
  repeat (apply elem_of_cons in H as [->|H]; [reflexivity|]);
  apply elem_of_nil in H; contradiction.

Lemma decimal_char_not_space c :
  c ∈ list_ascii_of_string "-0123456789" -> encoding.is_space c = false.
Proof. intros Hc. each_decimal_char Hc. Qed.

Lemma decimal_char_not_plus c :
  c ∈ list_ascii_of_string "-0123456789" -> Ascii.eqb c "+" = false.
Proof. intros Hc. each_decimal_char Hc. Qed.

Lemma decimal_char_ascii c :
  c ∈ list_ascii_of_string "-0123456789" ->
  encoding.in_range 0 127 (byte_of_ascii c) = true.
Proof. intros Hc. each_decimal_char Hc. Qed.

Lemma strip_no_space (s : string) :
  Forall (fun c => encoding.is_space c = false) (list_ascii_of_string s) ->
  encoding.rstrip (encoding.lstrip s) = s.
Proof.
  intros Hs.
  assert (Hl : encoding.lstrip s = s).
  { destruct s as [|c s]; [reflexivity|]. simpl in *.
    apply Forall_cons in Hs as [-> _]. reflexivity. }
  rewrite Hl. clear Hl. induction s as [|c s IH]; [reflexivity|].
  simpl in *. apply Forall_cons in Hs as [Hc Hs]. rewrite (IH Hs).
  destruct s; [rewrite Hc|]; reflexivity.
Qed.

Lemma utf8_valid_ascii (l : bytes) :
  Forall (fun b => encoding.in_range 0 127 b = true) l ->
  encoding.utf8_valid l = true.
Proof.
  induction 1 as [|b l Hb _ IH]; [reflexivity|].
  simpl. rewrite Hb. exact IH.
Qed.

Lemma utf8_decode_ascii (l : bytes) :
  Forall (fun b => encoding.in_range 0 127 b = true) l ->
  encoding.utf8_decode l = Some (map hashlib.Z_of_byte l).
Proof.
  induction 1 as [|b l Hb _ IH]; [reflexivity|].
  simpl. rewrite Hb, IH. reflexivity.
Qed.

Lemma decimal_char_code_point c :
  c ∈ list_ascii_of_string "-0123456789" ->
  encoding.ascii_of_code_point (hashlib.Z_of_byte (byte_of_ascii c)) = c.
Proof. intros Hc. each_decimal_char Hc. Qed.

(** [int()] reads a decimal literal in ASCII as it stands. *)
Lemma transform_decimal_chars (s : string) :
  Forall (fun c => c ∈ list_ascii_of_string "-0123456789")
         (list_ascii_of_string s) ->
  encoding.transform_decimal_and_space_to_ascii s = Some s.
Proof.
  intros Hs. unfold encoding.transform_decimal_and_space_to_ascii.
  rewrite utf8_decode_ascii.
  - simpl. f_equal. induction s as [|c s IH]; [reflexivity|].
    simpl in *. apply Forall_cons in Hs as [Hc Hs].
    rewrite (decimal_char_code_point c Hc). f_equal. exact (IH Hs).
  - unfold list_byte_of_string. apply Forall_map.
    eapply Forall_impl; [exact Hs | apply decimal_char_ascii].
Qed.

Lemma uint_digits_from (d : Decimal.uint) :
  encoding.digits_from true (DecimalString.NilEmpty.string_of_uint d)
  = Some (DecimalString.NilEmpty.string_of_uint d).
Proof.
  induction d; simpl; try reflexivity; rewrite IHd; reflexivity.
Qed.

Lemma uint_digits (d : Decimal.uint) :
  encoding.digits (DecimalString.NilZero.string_of_uint d)
  = Some (DecimalString.NilZero.string_of_uint d) /\
  exists c t,
    DecimalString.NilZero.string_of_uint d = String c t /\
    Ascii.eqb c "+" = false /\ Ascii.eqb c "-" = false.
Proof.
  unfold encoding.digits.
  destruct d; simpl; (split; [|eexists _, _; repeat split]);
    try reflexivity; rewrite uint_digits_from; reflexivity.
Qed.

Lemma parse_int_str_int (z : Z) :
  encoding.parse_int (encoding.str_int z) = Some z.
Proof.
  pose proof (str_int_chars z) as Hc. unfold encoding.parse_int.
  rewrite strip_no_space
    by (eapply Forall_impl; [exact Hc | apply decimal_char_not_space]).
  assert (Hd : encoding.decimal (encoding.str_int z) = Some z).
  { unfold encoding.decimal, encoding.str_int.
    rewrite DecimalString.NilZero.isi.
    - simpl. f_equal. apply DecimalZ.of_to.
    - destruct z; simpl; try discriminate. intros [= E].
      exact (DecimalPos.Unsigned.to_uint_nonnil _ E).
    - destruct z; simpl; try discriminate. intros [= E].
      exact (DecimalPos.Unsigned.to_uint_nonnil _ E). }
  clear Hc. revert Hd. unfold encoding.str_int.
  destruct (Z.to_int z) as [d|d];
    cbn [DecimalString.NilZero.string_of_int];
    destruct (uint_digits d) as (Hdig & c & t & E & Hplus & Hminus).
  - rewrite E in *. rewrite Hplus, Hminus, Hdig. intros Hd. exact Hd.
  - change (Ascii.eqb "-" "+") with false.
    change (Ascii.eqb "-" "-") with true. cbv iota.
    rewrite Hdig. intros Hd. exact Hd.
Qed.

(** [int(str(z))] is [z]. *)
Lemma int_str_int (z : Z) : encoding.int (PStr (encoding.str_int z)) = Ok z.
Proof.
  unfold encoding.int.
  rewrite (transform_decimal_chars _ (str_int_chars z)).
  cbn [mbind option_bind]. rewrite parse_int_str_int. reflexivity.
Qed.

Lemma force_text_str_int (z : Z) :
  encoding.force_text (PBytes (list_byte_of_string (encoding.str_int z)))
  = Ok (PStr (encoding.str_int z)).
Proof.
  unfold encoding.force_text.
  rewrite utf8_valid_ascii, string_of_list_byte_of_string; [reflexivity|].
  unfold list_byte_of_string. apply Forall_map.
  eapply Forall_impl; [apply str_int_chars | apply decimal_char_ascii].
Qed.

(** Every integer is a supported value of an integer field. *)
Lemma supported_integer (z : Z) : supported models.IntegerField (PInt z).
Proof.
  exists (PInt z). split; [reflexivity|]. split; [split; discriminate|].
  intros _. simpl encoding.force_bytes. rewrite force_text_str_int.
  step_bind. cbn [models.to_python models.IntegerField models.make_class
                  models.integer_to_python].
  rewrite int_str_int. reflexivity.
Qed.

(** Every well-formed text is a supported value of a text field, and of
    the plain [Field] when it is read back as text. *)
Lemma supported_text (s : string) :
  encoding.utf8_valid (list_byte_of_string s) = true ->
  supported models.TextField (PStr s) /\ supported models.Field_class (PStr s).
Proof.
  intros Hs. split; exists (PStr s);
    (split; [reflexivity|]; split; [split; discriminate|]);
    intros _; simpl; rewrite Hs, string_of_list_byte_of_string; reflexivity.
Qed.

Lemma supported_None :
  supported models.Field_class PNone /\ supported models.TextField PNone /\
  supported models.IntegerField PNone.
Proof.
  repeat split; exists PNone;
    (split; [reflexivity|]; split; [tauto | congruence]).
Qed.

Lemma stock_propagates_None :
  propagates_None models.Field_class /\ propagates_None models.TextField /\
  propagates_None models.IntegerField.
Proof.
  repeat split; try (destruct prepared; reflexivity);
    intros v v' Hv; destruct prepared; simpl; try congruence.
  - destruct v as [|b|z|s|b|a]; simpl; try congruence;
      try (intros [= <-]; discriminate).
    destruct (encoding.utf8_valid b); [intros [= <-]|]; discriminate.
  - destruct v as [|b|z|s|b|a]; simpl; try congruence;
      try (intros [= <-]; discriminate).
    + destruct (_ ≫= _); simpl; [intros [= <-]|]; discriminate.
    + destruct (encoding.parse_int _); simpl; [intros [= <-]|]; discriminate.
Qed.

(** ** Encrypting, decrypting and the round trip *)

Section encrypted_values.
Context `{!fernet.Primitive} `{!hkdf.Derivation}.
Context (base : models.FieldClass) (st : Settings).

(** What [get_db_prep_save] stores for a value the base class prepares
    to [p], once the cipher is built. *)
Lemma get_db_prep_save_value c primary e v p :
  EncryptedField.fernet st = Ok c ->
  (forall data,
     fernet.encrypt c e data = Ok (fernet.encrypt_with primary e data)) ->
  models.get_db_prep_save base v = Ok p -> p <> PNone ->
  EncryptedField.get_db_prep_save base st e v
  = Ok (Binary (fernet.encrypt_with primary e (encoding.force_bytes p))).
Proof.
  intros Hc He Hp Hn. unfold EncryptedField.get_db_prep_save.
  rewrite Hp. step_bind.
  destruct p; try congruence; simpl; rewrite Hc; step_bind;
    rewrite He; reflexivity.
Qed.

Lemma get_db_prep_save_None e v :
  models.get_db_prep_save base v = Ok PNone ->
  EncryptedField.get_db_prep_save base st e v = Ok NULL.
Proof.
  intros Hp. unfold EncryptedField.get_db_prep_save. rewrite Hp.
  reflexivity.
Qed.

Lemma from_db_value_token c token :
  EncryptedField.fernet st = Ok c ->
  EncryptedField.from_db_value base st (Binary token)
  = (data ← fernet.decrypt c token;
     text ← encoding.force_text (PBytes data);
     models.to_python base text).
Proof.
  intros Hc. unfold EncryptedField.from_db_value. rewrite Hc. reflexivity.
Qed.

Context `{!FernetLaws}.


(** C3. Under the same key configuration, what [get_db_prep_save]
    stores for a supported value [v] is read back as [v] by
    [from_db_value]; the stored cell is NULL exactly when [v] is [None],
    and a NULL cell is loaded as [None]. *)
Theorem encrypted_round_trip
    (Hne : EncryptedField.fernet_keys st <> [])
    (Hok : accepted (EncryptedField.fernet_keys st))
    (e : fernet.entropy) (v : pyval) (Hv : supported base v) :
  (exists cell,
     EncryptedField.get_db_prep_save base st e v = Ok cell /\
     EncryptedField.from_db_value base st cell = Ok v /\
     (cell = NULL <-> v = PNone)) /\
  EncryptedField.from_db_value base st NULL = Ok PNone.
Proof.
  split; [|reflexivity].
  destruct Hv as (p & Hp & Hnone & Hback).
  destruct (decide (v = PNone)) as [->|Hn].
  - assert (p = PNone) as -> by (apply Hnone; reflexivity).
    exists NULL. rewrite (get_db_prep_save_None e PNone Hp).
    repeat split; reflexivity.
  - assert (Hpn : p <> PNone) by (intros E; apply Hn, Hnone, E).
    destruct (fernet_built st Hne Hok)
      as (c & primary & rest & Hc & Hks & Henc & Hdec).
    exists (Binary (fernet.encrypt_with primary e (encoding.force_bytes p))).
    rewrite (get_db_prep_save_value c primary e v p Hc (Henc e) Hp Hpn).
    split; [reflexivity|]. split; [|split; [discriminate | contradiction]].
    rewrite (from_db_value_token c _ Hc), Hdec.
    assert (Hk : fernet.key_ok primary = true).
    { unfold accepted in Hok. rewrite Hks in Hok.
      apply Forall_cons in Hok as [Hk _]. exact Hk. }
    rewrite Hks, (spec_first_success_head primary rest e _ Hk).
    simpl result_of_option. step_bind. exact (Hback Hn).
Qed.

End encrypted_values.

(** ** The dual field: descriptor, save and load *)

Lemma getattr_setattr inst a v : getattr (setattr inst a v) a = Ok v.
Proof. unfold getattr, setattr. rewrite lookup_insert_eq. reflexivity. Qed.

Lemma descriptor_set_NO_VALUE descriptor inst :
  DualFieldDescriptor.__set__ descriptor inst NO_VALUE = inst.
Proof. reflexivity. Qed.

Lemma descriptor_set_value descriptor inst v :
  v <> NO_VALUE ->
  DualFieldDescriptor.__set__ descriptor inst v
  = setattr inst (DualFieldDescriptor.encrypted_field_attname descriptor) v.
Proof.
  intros Hv. unfold DualFieldDescriptor.__set__.
  rewrite bool_decide_eq_false_2 by exact Hv. reflexivity.
Qed.

(** After a run of assignments that ends with a real value, the hidden
    attribute holds that value. *)
Lemma assign_all_last descriptor inst values v :
  v <> NO_VALUE ->
  getattr (Model.assign_all descriptor inst (values ++ [v]))
          (DualFieldDescriptor.encrypted_field_attname descriptor) = Ok v.
Proof.
  intros Hv. unfold Model.assign_all. rewrite fold_left_app. simpl.
  rewrite descriptor_set_value by exact Hv. apply getattr_setattr.
Qed.

(** [contribute_to_class] ties the descriptor to the hidden field's
    attribute name, [<name>_encrypted] for a hidden field built by
    [DualField.__init__]. *)
Lemma contribute_to_class_links d name d' descriptor :
  DualField.contribute_to_class d name = Ok (d', descriptor) ->
  models.attname (DualField.encrypted_field d')
  = Some (DualFieldDescriptor.encrypted_field_attname descriptor) /\
  (models.name (DualField.encrypted_field d) = None ->
   DualFieldDescriptor.encrypted_field_attname descriptor
   = (name ++ "_encrypted")%string).
Proof.
  unfold DualField.contribute_to_class. simpl. intros [= <- <-]. simpl.
  split; [reflexivity|]. intros ->. reflexivity.
Qed.

Section dual_values.
Context (base : models.FieldClass).
Context (d : DualField.t) (descriptor : DualFieldDescriptor.t).

(** C1. On every save of a dual field the value to hash is read from
    the hidden encrypted attribute of the instance.  The hash cell is
    NULL when that value is [None]; otherwise it is the SHA-256 digest,
    32 bytes long, of the bytes of the value as the field class prepares
    it.  After any run of assignments to the dual attribute the hash
    cell depends on the last value assigned alone. *)
Theorem dual_save_hashes_current_value
    (Hbase : propagates_None base)
    (Hlink : models.attname (DualField.encrypted_field d)
             = Some (DualFieldDescriptor.encrypted_field_attname descriptor)) :
  (forall inst,
     DualField.pre_save d inst
     = getattr inst (DualFieldDescriptor.encrypted_field_attname descriptor))
  /\
  (forall inst,
     getattr inst (DualFieldDescriptor.encrypted_field_attname descriptor)
     = Ok PNone ->
     Model.save_hash_cell base d inst = Ok NULL)
  /\
  (forall inst v p,
     getattr inst (DualFieldDescriptor.encrypted_field_attname descriptor)
     = Ok v ->
     v <> PNone ->
     models.get_db_prep_value base false v = Ok p ->
     Model.save_hash_cell base d inst
     = Ok (Binary (hashlib.sha256 (encoding.force_bytes p))) /\
     length (hashlib.sha256 (encoding.force_bytes p)) = 32%nat)
  /\
  (forall inst values v,
     v <> NO_VALUE ->
     Model.save_hash_cell base d
       (Model.assign_all descriptor inst (values ++ [v]))
     = DualField.get_db_prep_value base false v).
Proof.
  assert (Hpre : forall inst,
            DualField.pre_save d inst
            = getattr inst
                (DualFieldDescriptor.encrypted_field_attname descriptor)).
  { intros inst. unfold DualField.pre_save, models.value_from_object.
    rewrite Hlink. reflexivity. }
  split; [exact Hpre|]. unfold Model.save_hash_cell. split; [|split].
  - intros inst Hg. rewrite Hpre, Hg. step_bind.
    unfold DualField.get_db_prep_value.
    destruct (Hbase false) as [-> _]. reflexivity.
  - intros inst v p Hg Hv Hp. rewrite Hpre, Hg. step_bind.
    unfold DualField.get_db_prep_value. rewrite Hp. step_bind.
    split; [|apply sha256_length].
    destruct (Hbase false) as [_ Hnn]. specialize (Hnn v p Hv Hp).
    destruct p; try congruence; reflexivity.
  - intros inst values v Hv.
    rewrite Hpre, (assign_all_last descriptor inst values v Hv).
    reflexivity.
Qed.

Context `{!fernet.Primitive} `{!hkdf.Derivation} (st : Settings).


End dual_values.

(** ** The two cells of a saved dual attribute agree

    The hash cell is the digest of the very bytes that the encrypted cell
    decrypts to. *)

Section dual_consistency.
Context `{!fernet.Primitive} `{!hkdf.Derivation} `{!FernetLaws}.
Context (base : models.FieldClass) (st : Settings).
Context (d : DualField.t) (descriptor : DualFieldDescriptor.t).

Lemma dual_cells_consistent e inst v :
  propagates_None base ->
  models.attname (DualField.encrypted_field d)
  = Some (DualFieldDescriptor.encrypted_field_attname descriptor) ->
  EncryptedField.fernet_keys st <> [] ->
  accepted (EncryptedField.fernet_keys st) ->
  getattr inst (DualFieldDescriptor.encrypted_field_attname descriptor)
  = Ok v ->
  v <> PNone ->
  succeeds (models.get_db_prep_value base false v) ->
  exists c token data,
    EncryptedField.fernet st = Ok c /\
    Model.save_encrypted_cell base st d e inst = Ok (Binary token) /\
    fernet.decrypt c token = Ok data /\
    Model.save_hash_cell base d inst = Ok (Binary (hashlib.sha256 data)).
Proof.
  intros Hbase Hlink Hne Hok Hg Hv Hprep.
  destruct (models.get_db_prep_value base false v) as [p|] eqn:Hp;
    [clear Hprep | contradiction].
  destruct (Hbase false) as [_ Hnn]. specialize (Hnn v p Hv Hp).
  destruct (fernet_built st Hne Hok)
    as (c & primary & rest & Hc & Hks & Henc & Hdec).
  exists c, (fernet.encrypt_with primary e (encoding.force_bytes p)),
         (encoding.force_bytes p).
  split; [exact Hc|]. split; [|split].
  - unfold Model.save_encrypted_cell, models.value_from_object.
    rewrite Hlink, Hg. step_bind.
    apply (get_db_prep_save_value base st c primary e v p Hc (Henc e) Hp Hnn).
  - rewrite Hdec.
    assert (Hk : fernet.key_ok primary = true).
    { unfold accepted in Hok. rewrite Hks in Hok.
      apply Forall_cons in Hok as [Hk _]. exact Hk. }
    rewrite Hks, (spec_first_success_head primary rest e _ Hk).
    reflexivity.
  - unfold Model.save_hash_cell, DualField.pre_save, models.value_from_object.
    rewrite Hlink, Hg. step_bind. unfold DualField.get_db_prep_value.
    rewrite Hp. step_bind. destruct p; try congruence; reflexivity.
Qed.

End dual_consistency.

(** ** The reference instance satisfies the laws *)

Lemma hex_length (l : bytes) :
  length (list_byte_of_string (hashlib.hex l)) = (2 * length l)%nat.
Proof.
  induction l as [|b l IH]; [reflexivity|].
  unfold list_byte_of_string in *. simpl. rewrite IH. lia.
Qed.

Lemma reference_token_shape (e : fernet.entropy) :
  length (hashlib.be64 (fernet.current_time e)
          ++ take 16 (fernet.iv e ++ repeat x00 16)) = 24%nat.
Proof.
  rewrite length_app, be64_length, length_take, length_app, repeat_length.
  lia.
Qed.

(** An accepted key stands for 32 bytes of key material. *)
Lemma key_ok_raw_key_length `{!fernet.Primitive} (k : pyval) :
  fernet.key_ok k = true -> length (fernet.raw_key k) = 32%nat.
Proof.
  unfold fernet.key_ok, fernet.Fernet_new, fernet.raw_key.
  destruct (fernet.urlsafe_b64decode k) as [raw|err]; step_bind;
    [|discriminate].
  destruct (length raw =? 32)%nat eqn:E; [|discriminate].
  intros _. apply Nat.eqb_eq, E.
Qed.

Lemma reference_unseal_seal (raw raw' : bytes) e data :
  length raw = 32%nat -> length raw' = 32%nat ->
  reference.unseal raw' (reference.seal raw e data)
  = if bool_decide (raw = raw') then Some data else None.
Proof.
  intros Hlen Hlen'. unfold reference.unseal, reference.seal.
  rewrite (app_assoc (hashlib.be64 _)).
  pose proof (reference_token_shape e) as Hhdr.
  set (hdr := hashlib.be64 _ ++ take 16 _) in *.
  rewrite (drop_app_length' hdr _ 24) by (symmetry; exact Hhdr).
  rewrite (take_app_length' raw data 32) by (symmetry; exact Hlen).
  rewrite (proj2 (Nat.eqb_eq _ _) Hlen').
  rewrite (app_assoc hdr raw data).
  rewrite (drop_app_length' (hdr ++ raw) data 56)
    by (rewrite length_app, Hhdr, Hlen; reflexivity).
  rewrite !length_app, Hhdr, Hlen.
  replace (56 <=? 24 + 32 + length data)%nat with true
    by (symmetry; apply Nat.leb_le; lia).
  destruct (bool_decide (raw = raw')); reflexivity.
Qed.

#[export] Instance reference_laws : @FernetLaws reference.primitive.
Proof.
  split.
  - intros k e data Hk. apply key_ok_raw_key_length in Hk.
    unfold fernet.decrypt_with, fernet.encrypt_with.
    cbn [fernet.seal fernet.unseal reference.primitive].
    rewrite (reference_unseal_seal _ _ e data Hk Hk).
    rewrite bool_decide_eq_true_2 by reflexivity. reflexivity.
  - intros k k' e data Hk Hk' Hne.
    apply key_ok_raw_key_length in Hk, Hk'.
    unfold fernet.decrypt_with, fernet.encrypt_with.
    cbn [fernet.seal fernet.unseal reference.primitive].
    rewrite (reference_unseal_seal _ _ e data Hk Hk').
    rewrite bool_decide_eq_false_2; [reflexivity|].
    intros E. apply Hne. unfold fernet.signing_key. rewrite E. reflexivity.
Qed.

(** The reference [Fernet] accepts every 44 bytes. *)
Lemma reference_key_ok_bytes (b : bytes) :
  length b = 44%nat -> @fernet.key_ok reference.primitive (PBytes b) = true.
Proof.
  intros Hb. unfold fernet.key_ok, fernet.Fernet_new,
    fernet.urlsafe_b64decode.
  cbn [fernet.b64decode reference.primitive]. unfold reference.b64decode.
  rewrite (proj2 (Nat.eqb_eq _ _) Hb). step_bind.
  rewrite length_take, Hb. reflexivity.
Qed.

#[export] Instance reference_hkdf_laws
  : @HkdfLaws reference.primitive reference.derivation.
Proof.
  split. intros secret.
  cbn [hkdf.derive_fernet_key reference.derivation].
  unfold reference.derive_fernet_key. apply reference_key_ok_bytes.
  rewrite length_take, hex_length, sha256_length. reflexivity.
Qed.

(** With key derivation switched on every cipher key is accepted. *)
Lemma derived_keys_accepted `{!fernet.Primitive} `{!hkdf.Derivation}
    `{!HkdfLaws} (st : Settings) :
  truthy (default (PBool true) (FERNET_USE_HKDF st)) = true ->
  accepted (EncryptedField.fernet_keys st).
Proof.
  intros Hflag. unfold EncryptedField.fernet_keys. rewrite Hflag.
  apply Forall_map, Forall_forall. intros k _. apply derived_key_ok.
Qed.

(** ** The theorems at work on the reference instance *)

#[local] Existing Instance reference.primitive.
#[local] Existing Instance reference.derivation.

(** A closed decidable fact, by evaluation. *)
Ltac by_evaluation :=
  match goal with
  | |- ?P => apply (bool_decide_unpack P); vm_compute; exact I
  end.

Example declared_ssn :
  reference.declared = Ok (reference.ssn_field, reference.ssn_descriptor).
Proof. vm_compute. reflexivity. Qed.

Example hash_of_email :
  hashlib.hex (DualField._hash_value (PStr "hello@example.com"))
  = "1753bdb368271a785887ddbfb926164f2f7c6a88f609c07ff0401c5572955206".
Proof. vm_compute. reflexivity. Qed.




Lemma lookups_permitted_witness :
  DualField.get_prep_lookup models.IntegerField reference.ssn_field
    "exact" (One (PStr "42")) = Ok (One (PInt 42)) /\
  DualField.get_prep_lookup models.IntegerField reference.ssn_field
    "in" (Many [PStr "1"; PInt 2]) = Ok (Many [PInt 1; PInt 2]) /\
  (exists msg,
     DualField.get_prep_lookup models.IntegerField reference.ssn_field
       "range" (Many [PInt 1; PInt 2]) = Raise (FieldError msg)) /\
  (exists msg,
     EncryptedField.get_prep_lookup
       (DualField.encrypted_field reference.ssn_field)
       "exact" (One (PInt 42)) = Raise (FieldError msg)).
Proof.
  split; [|split; [|split]].
  - destruct (lookups_permitted models.IntegerField
                (DualField.encrypted_field reference.ssn_field)
                reference.ssn_field "exact" (One (PStr "42")))
      as (_ & Hin & _ & _).
    rewrite Hin by by_evaluation. vm_compute. reflexivity.
  - destruct (lookups_permitted models.IntegerField
                (DualField.encrypted_field reference.ssn_field)
                reference.ssn_field "in" (Many [PStr "1"; PInt 2]))
      as (_ & Hin & _ & _).
    rewrite Hin by by_evaluation. vm_compute. reflexivity.
  - destruct (lookups_permitted models.IntegerField
                (DualField.encrypted_field reference.ssn_field)
                reference.ssn_field "range" (Many [PInt 1; PInt 2]))
      as (_ & _ & Hout & _).
    apply Hout. by_evaluation.
  - apply (lookups_permitted models.IntegerField
             (DualField.encrypted_field reference.ssn_field)
             reference.ssn_field "exact" (One (PInt 42))).
Defined.

Lemma keys_default_nonempty_witness :
  (forall ks, FERNET_KEYS reference.settings_rotated = Some ks -> ks <> []) /\
  EncryptedField.keys reference.settings_rotated
    = [PStr "secret-v2"; PStr "secret-v1"] /\
  EncryptedField.fernet_keys reference.settings_rotated <> [] /\
  EncryptedField.fernet reference.settings_rotated <> Raise IndexError /\
  EncryptedField.keys reference.settings_default
    = [SECRET_KEY reference.settings_default].
Proof.
  assert (Hgiven : forall ks,
            FERNET_KEYS reference.settings_rotated = Some ks -> ks <> []).
  { intros ks [= <-]. discriminate. }
  destruct (keys_default_nonempty reference.settings_rotated Hgiven)
    as (_ & _ & Hf & _ & Hc).
  assert (Habsent : forall ks,
            FERNET_KEYS reference.settings_default = Some ks -> ks <> []).
  { intros ks E. discriminate E. }
  destruct (keys_default_nonempty reference.settings_default Habsent)
    as (Hd & _).
  repeat split; first [assumption | reflexivity].
Defined.


Lemma encrypted_round_trip_witness :
  exists cell,
    EncryptedField.get_db_prep_save models.IntegerField
      reference.settings_rotated reference.entropy0 (PInt (-42)) = Ok cell /\
    EncryptedField.from_db_value models.IntegerField
      reference.settings_rotated cell = Ok (PInt (-42)).
Proof.
  destruct (encrypted_round_trip models.IntegerField
              reference.settings_rotated
              ltac:(by_evaluation) ltac:(by_evaluation)
              reference.entropy0 (PInt (-42)) (supported_integer (-42)))
    as [(cell & Hsave & Hload & _) _].
  exists cell. split; [exact Hsave | exact Hload].
Defined.

Lemma dual_save_hashes_current_value_witness :
  Model.save_hash_cell models.IntegerField reference.ssn_field
    (Model.assign_all reference.ssn_descriptor ∅
       [PInt 7; NO_VALUE; PStr "13"; PInt 42])
  = Ok (Binary (hashlib.sha256 (list_byte_of_string "42"))) /\
  Model.save_hash_cell models.IntegerField reference.ssn_field
    (setattr ∅ "ssn_encrypted" PNone) = Ok NULL.
Proof.
  destruct (dual_save_hashes_current_value models.IntegerField
              reference.ssn_field reference.ssn_descriptor
              (proj2 (proj2 stock_propagates_None)) eq_refl)
    as (_ & Hnull & _ & Hlast).
  split.
  - rewrite (Hlast ∅ [PInt 7; NO_VALUE; PStr "13"] (PInt 42)) by discriminate.
    reflexivity.
  - apply Hnull. reflexivity.
Defined.


(** * Further properties of the fields *)

(** ** When the key configuration is usable *)

Section configuration.
Context `{!fernet.Primitive} `{!hkdf.Derivation}.

(** Building the cipher stops at the first key [Fernet] does not accept,
    with the exception of that key. *)
Lemma fernet_first_refused (st : Settings) pre k post :
  EncryptedField.fernet_keys st = pre ++ k :: post ->
  accepted pre -> fernet.key_ok k = false ->
  EncryptedField.fernet st = Raise (key_error k).
Proof.
  intros E Hpre Hk. unfold EncryptedField.fernet. rewrite E.
  destruct (length (pre ++ k :: post) =? 1)%nat eqn:L.
  - apply Nat.eqb_eq in L. rewrite length_app in L. simpl in L.
    destruct pre as [|p pre]; [|simpl in L; lia].
    simpl. rewrite (Fernet_new_Raise k Hk). reflexivity.
  - rewrite (comprehension_Fernet_new_stops pre k post Hpre Hk).
    reflexivity.
Qed.

(** Every outcome of building the cipher. *)
Lemma fernet_cases (st : Settings) :
  match EncryptedField.fernet st with
  | Ok c =>
      EncryptedField.fernet_keys st <> [] /\
      accepted (EncryptedField.fernet_keys st) /\
      c = match EncryptedField.fernet_keys st with
          | [k] => fernet.Single (fernet.mkFernet k)
          | ks => fernet.Multi (fernet.mkMultiFernet (map fernet.mkFernet ks))
          end
  | Raise e =>
      (EncryptedField.fernet_keys st = [] /\ e = ValueError) \/
      (exists pre k post,
         EncryptedField.fernet_keys st = pre ++ k :: post /\
         accepted pre /\ fernet.key_ok k = false /\ e = key_error k)
  end.
Proof.
  destruct (accepted_or_first_refused (EncryptedField.fernet_keys st))
    as [Hacc|(pre & k & post & E & Hpre & Hk)].
  - unfold EncryptedField.fernet.
    destruct (EncryptedField.fernet_keys st) as [|k [|k' ks]] eqn:E.
    + simpl. left. split; reflexivity.
    + simpl. apply Forall_cons in Hacc as Hacc'. destruct Hacc' as [Hk _].
      rewrite (Fernet_new_Ok k Hk). simpl.
      split; [discriminate|]. split; [exact Hacc | reflexivity].
    + change (length (k :: k' :: ks) =? 1)%nat with false. cbv iota.
      rewrite (comprehension_Fernet_new_Ok _ Hacc). step_bind. simpl.
      split; [discriminate|]. split; [exact Hacc | reflexivity].
  - rewrite (fernet_first_refused st pre k post E Hpre Hk).
    right. exists pre, k, post. repeat split; assumption.
Qed.

(** A key list with a key [Fernet] does not accept is not accepted. *)
Lemma refused_not_accepted (pre : list pyval) k post :
  fernet.key_ok k = false -> ~ accepted (pre ++ k :: post).
Proof.
  intros Hk Hacc. unfold accepted in Hacc.
  apply Forall_app in Hacc as [_ Hacc].
  apply Forall_cons in Hacc as [Hk' _]. congruence.
Qed.

(** X1. The cipher can be built exactly when the list of cipher keys is
    not empty and [Fernet] accepts every key of it, the fallback keys
    included.  An empty list raises [ValueError]; otherwise building the
    cipher stops at the first key [Fernet] does not accept, with
    [ValueError] when that key is text or bytes and [TypeError] when it is
    anything else; there is no other failure.  A single key gives a
    [Fernet], several keys a [MultiFernet] over all of them in the
    configured order. *)
Theorem fernet_usable_iff (st : Settings) :
  ((exists c, EncryptedField.fernet st = Ok c) <->
   EncryptedField.fernet_keys st <> [] /\
   accepted (EncryptedField.fernet_keys st))
  /\
  (EncryptedField.fernet_keys st = [] ->
   EncryptedField.fernet st = Raise ValueError)
  /\
  (forall pre k post,
     EncryptedField.fernet_keys st = pre ++ k :: post ->
     accepted pre -> fernet.key_ok k = false ->
     EncryptedField.fernet st
     = Raise (if is_text_or_bytes k then ValueError else TypeError))
  /\
  (forall e,
     EncryptedField.fernet st = Raise e -> e = ValueError \/ e = TypeError)
  /\
  (forall c,
     EncryptedField.fernet st = Ok c ->
     c = match EncryptedField.fernet_keys st with
         | [k] => fernet.Single (fernet.mkFernet k)
         | ks => fernet.Multi (fernet.mkMultiFernet (map fernet.mkFernet ks))
         end).
Proof.
  pose proof (fernet_cases st) as Hc.
  split; [|split; [|split; [|split]]].
  - destruct (EncryptedField.fernet st) as [c|e].
    + destruct Hc as (Hne & Hacc & _). split; eauto.
    + split; [intros [c [=]]|]. intros [Hne Hacc]. exfalso.
      destruct Hc as [[Hempty _]|(pre & k & post & E & _ & Hk & _)];
        [contradiction|].
      rewrite E in Hacc. exact (refused_not_accepted pre k post Hk Hacc).
  - intros Hempty. destruct (EncryptedField.fernet st) as [c|e].
    + destruct Hc as (Hne & _). contradiction.
    + destruct Hc as [[_ ->]|(pre & k & post & E & _)]; [reflexivity|].
      rewrite E in Hempty. destruct pre; discriminate.
  - intros pre k post. apply fernet_first_refused.
  - intros e He. rewrite He in Hc.
    destruct Hc as [[_ ->]|(pre & k & post & _ & _ & _ & ->)]; [auto|].
    apply key_error_cases.
  - intros c He. rewrite He in Hc. destruct Hc as (_ & _ & Hshape).
    exact Hshape.
Qed.

(** With an unusable key list only [None] is stored and loaded. *)
Lemma unusable_keys_behaviour (base : models.FieldClass) (st : Settings)
    (e : fernet.entropy) (err : exn) :
  EncryptedField.fernet st = Raise err ->
  (forall v,
     models.get_db_prep_save base v = Ok PNone ->
     EncryptedField.get_db_prep_save base st e v = Ok NULL) /\
  EncryptedField.from_db_value base st NULL = Ok PNone /\
  (forall v p,
     models.get_db_prep_save base v = Ok p -> p <> PNone ->
     EncryptedField.get_db_prep_save base st e v = Raise err) /\
  (forall token,
     EncryptedField.from_db_value base st (Binary token) = Raise err).
Proof.
  intros Herr. split; [|split; [reflexivity|split]].
  - intros v Hp. unfold EncryptedField.get_db_prep_save. rewrite Hp.
    reflexivity.
  - intros v p Hp Hn. unfold EncryptedField.get_db_prep_save. rewrite Hp.
    step_bind. destruct p; try congruence; simpl; rewrite Herr; reflexivity.
  - intros token. unfold EncryptedField.from_db_value. rewrite Herr.
    reflexivity.
Qed.

(** X2. The cipher is built only when there is something to encrypt or
    decrypt.  With an empty key list, or a key [Fernet] does not accept
    anywhere in it, [None] is still stored as NULL and NULL still loaded
    as [None], while every other value and every other cell raises the
    exception of building the cipher: [ValueError], or [TypeError] when a
    key that is neither text nor bytes is met first. *)
Theorem unusable_keys_only_None_passes
    (base : models.FieldClass) (st : Settings) (e : fernet.entropy)
    (Hbad : EncryptedField.fernet_keys st = [] \/
            ~ accepted (EncryptedField.fernet_keys st)) :
  exists err,
    EncryptedField.fernet st = Raise err /\
    (err = ValueError \/ err = TypeError) /\
    (Forall (fun k => is_text_or_bytes k = true)
            (EncryptedField.fernet_keys st) -> err = ValueError) /\
    (forall v,
       models.get_db_prep_save base v = Ok PNone ->
       EncryptedField.get_db_prep_save base st e v = Ok NULL) /\
    EncryptedField.from_db_value base st NULL = Ok PNone /\
    (forall v p,
       models.get_db_prep_save base v = Ok p -> p <> PNone ->
       EncryptedField.get_db_prep_save base st e v = Raise err) /\
    (forall token,
       EncryptedField.from_db_value base st (Binary token) = Raise err).
Proof.
  pose proof (fernet_cases st) as Hc.
  destruct (EncryptedField.fernet st) as [c|err] eqn:Hf.
  - destruct Hc as (Hne & Hacc & _). destruct Hbad; contradiction.
  - exists err. split; [reflexivity|]. split; [|split].
    + destruct Hc as [[_ ->]|(pre & k & post & _ & _ & _ & ->)]; [auto|].
      apply key_error_cases.
    + intros Htext.
      destruct Hc as [[_ ->]|(pre & k & post & E & _ & _ & ->)];
        [reflexivity|].
      rewrite E in Htext. apply Forall_app in Htext as [_ Htext].
      apply Forall_cons in Htext as [Hk _].
      unfold key_error. rewrite Hk. reflexivity.
    + exact (unusable_keys_behaviour base st e err Hf).
Qed.

Context `{!HkdfLaws}.

(** X3. With key derivation on (the default) every non-empty list of
    secrets is a usable configuration whatever the secrets look like, and
    without [FERNET_KEYS] the cipher is a single [Fernet] under the key
    derived from [SECRET_KEY]. *)
Theorem derived_configuration_usable (st : Settings)
    (Hflag : truthy (default (PBool true) (FERNET_USE_HKDF st)) = true) :
  (EncryptedField.keys st <> [] ->
   exists c, EncryptedField.fernet st = Ok c) /\
  (FERNET_KEYS st = None ->
   EncryptedField.fernet st
   = Ok (fernet.Single
           (fernet.mkFernet (hkdf.derive_fernet_key (SECRET_KEY st))))).
Proof.
  assert (Hacc : accepted (EncryptedField.fernet_keys st)).
  { unfold EncryptedField.fernet_keys. rewrite Hflag.
    apply Forall_map, Forall_forall. intros k _. apply derived_key_ok. }
  assert (Hlen : length (EncryptedField.fernet_keys st)
                 = length (EncryptedField.keys st)).
  { unfold EncryptedField.fernet_keys. rewrite Hflag. apply length_map. }
  pose proof (fernet_cases st) as Hc. split.
  - intros Hne. destruct (EncryptedField.fernet st) as [c|e]; [eauto|].
    exfalso. destruct Hc as [[Hempty _]|(pre & k & post & E & _ & Hk & _)].
    + apply Hne, length_zero_iff_nil.
      rewrite <- Hlen, Hempty. reflexivity.
    + rewrite E in Hacc. exact (refused_not_accepted pre k post Hk Hacc).
  - intros Hnone.
    assert (Hk : EncryptedField.fernet_keys st
                 = [hkdf.derive_fernet_key (SECRET_KEY st)]).
    { unfold EncryptedField.fernet_keys, EncryptedField.keys.
      rewrite Hflag, Hnone. reflexivity. }
    destruct (EncryptedField.fernet st) as [c|e].
    + rewrite Hk in Hc. destruct Hc as (_ & _ & ->). reflexivity.
    + exfalso.
      destruct Hc as [[Hempty _]|(pre & k & post & E & _ & Hbad & _)].
      * rewrite Hk in Hempty. discriminate Hempty.
      * rewrite E in Hacc.
        exact (refused_not_accepted pre k post Hbad Hacc).
Qed.

End configuration.

(** ** What a stored value is loaded as *)

Section load_after_save.
Context `{!fernet.Primitive} `{!hkdf.Derivation} `{!FernetLaws}.
Context (base : models.FieldClass).

(** Saving under one configuration and loading under another whose key
    list opens what the first key of the former sealed. *)
Lemma load_after_save_across (st st' : Settings) e v p primary rest :
  EncryptedField.fernet_keys st = primary :: rest ->
  accepted (EncryptedField.fernet_keys st) ->
  accepted (EncryptedField.fernet_keys st') ->
  EncryptedField.fernet_keys st' <> [] ->
  spec_first_success (EncryptedField.fernet_keys st')
    (fernet.encrypt_with primary e (encoding.force_bytes p))
  = Some (encoding.force_bytes p) ->
  models.get_db_prep_save base v = Ok p -> p <> PNone ->
  exists cell,
    EncryptedField.get_db_prep_save base st e v = Ok cell /\
    cell <> NULL /\
    EncryptedField.from_db_value base st' cell
    = (text ← encoding.force_text (PBytes (encoding.force_bytes p));
       models.to_python base text).
Proof.
  intros Hks Hacc Hacc' Hne' Hopen Hp Hn.
  assert (Hne : EncryptedField.fernet_keys st <> []) by (rewrite Hks; discriminate).
  destruct (fernet_built st Hne Hacc)
    as (c & primary0 & rest0 & Hc & Hks0 & Henc & _).
  rewrite Hks in Hks0. injection Hks0 as <- <-.
  destruct (fernet_built st' Hne' Hacc')
    as (c' & primary' & rest' & Hc' & _ & _ & Hdec').
  exists (Binary (fernet.encrypt_with primary e (encoding.force_bytes p))).
  split; [|split; [discriminate|]].
  - exact (get_db_prep_save_value base st c primary e v p Hc (Henc e) Hp Hn).
  - rewrite (from_db_value_token base st' c' _ Hc'), Hdec', Hopen.
    reflexivity.
Qed.

(** Saving and loading under one configuration. *)
Lemma load_after_save_same (st : Settings) e v p :
  EncryptedField.fernet_keys st <> [] ->
  accepted (EncryptedField.fernet_keys st) ->
  models.get_db_prep_save base v = Ok p -> p <> PNone ->
  exists cell,
    EncryptedField.get_db_prep_save base st e v = Ok cell /\
    cell <> NULL /\
    EncryptedField.from_db_value base st cell
    = (text ← encoding.force_text (PBytes (encoding.force_bytes p));
       models.to_python base text).
Proof.
  intros Hne Hacc Hp Hn.
  destruct (EncryptedField.fernet_keys st) as [|primary rest] eqn:Hks;
    [congruence|].
  assert (Hk : fernet.key_ok primary = true).
  { apply Forall_cons in Hacc as [Hk _]. exact Hk. }
  rewrite <- Hks in Hacc, Hne.
  apply (load_after_save_across st st e v p primary rest
           Hks Hacc Hacc Hne); [|exact Hp | exact Hn].
  rewrite Hks. apply spec_first_success_head, Hk.
Qed.

(** X4. Loading what was saved, for every value and not only for the
    supported ones: under a usable configuration a value the base class
    prepares to [p], not [None], is stored in a non-NULL cell and loaded
    as [to_python(force_text(force_bytes(p)))], whatever randomness the
    encryption drew; a failure of the base class to prepare the value is
    the failure of the save. *)
Theorem load_after_save (st : Settings) (e : fernet.entropy) (v : pyval)
    (Hne : EncryptedField.fernet_keys st <> [])
    (Hacc : accepted (EncryptedField.fernet_keys st)) :
  (forall p,
     models.get_db_prep_save base v = Ok p -> p <> PNone ->
     exists cell,
       EncryptedField.get_db_prep_save base st e v = Ok cell /\
       cell <> NULL /\
       EncryptedField.from_db_value base st cell
       = (text ← encoding.force_text (PBytes (encoding.force_bytes p));
          models.to_python base text))
  /\
  (forall err,
     models.get_db_prep_save base v = Raise err ->
     EncryptedField.get_db_prep_save base st e v = Raise err).
Proof.
  split.
  - intros p Hp Hn. exact (load_after_save_same st e v p Hne Hacc Hp Hn).
  - intros err Hp. unfold EncryptedField.get_db_prep_save. rewrite Hp.
    reflexivity.
Qed.

(** X5. Key rotation seen from the field.  A supported value saved under
    one configuration is loaded unchanged under any other configuration
    whose cipher keys are accepted and contain the key it was saved
    under, at any position and in any spelling; under a usable
    configuration that lacks that key, loading a non-NULL cell raises
    [InvalidToken].  Keys are compared by their key material, and the
    loading configuration is taken to tell the saving key apart from its
    other keys by the signing half. *)
Theorem rotation_keeps_rows_readable
    (st st' : Settings) (e : fernet.entropy) (v : pyval)
    (primary : pyval) (rest : list pyval)
    (Hks : EncryptedField.fernet_keys st = primary :: rest)
    (Hacc : accepted (EncryptedField.fernet_keys st))
    (Hacc' : accepted (EncryptedField.fernet_keys st'))
    (Hne' : EncryptedField.fernet_keys st' <> [])
    (Hapart : tells_apart (EncryptedField.fernet_keys st') primary)
    (Hv : supported base v) :
  exists cell,
    EncryptedField.get_db_prep_save base st e v = Ok cell /\
    (has_key (EncryptedField.fernet_keys st') primary ->
     EncryptedField.from_db_value base st' cell = Ok v) /\
    (~ has_key (EncryptedField.fernet_keys st') primary -> v <> PNone ->
     EncryptedField.from_db_value base st' cell = Raise InvalidToken).
Proof.
  destruct Hv as (p & Hp & Hnone & Hback).
  destruct (decide (v = PNone)) as [->|Hn].
  - assert (p = PNone) as -> by (apply Hnone; reflexivity).
    exists NULL. split; [|split].
    + unfold EncryptedField.get_db_prep_save. rewrite Hp. reflexivity.
    + reflexivity.
    + congruence.
  - assert (Hpn : p <> PNone) by (intros E; apply Hn, Hnone, E).
    assert (Hne : EncryptedField.fernet_keys st <> [])
      by (rewrite Hks; discriminate).
    destruct (fernet_built st Hne Hacc)
      as (c & primary0 & rest0 & Hc & Hks0 & Henc & _).
    rewrite Hks in Hks0. injection Hks0 as <- <-.
    assert (Hk : fernet.key_ok primary = true).
    { unfold accepted in Hacc. rewrite Hks in Hacc.
      apply Forall_cons in Hacc as [Hk _]. exact Hk. }
    destruct (fernet_built st' Hne' Hacc')
      as (c' & primary' & rest' & Hc' & _ & _ & Hdec').
    destruct (spec_first_success_sealed _ primary e
                (encoding.force_bytes p) Hacc' Hk Hapart) as [Hyes Hno].
    exists (Binary (fernet.encrypt_with primary e (encoding.force_bytes p))).
    split; [|split].
    + exact (get_db_prep_save_value base st c primary e v p Hc (Henc e) Hp Hpn).
    + intros Hin. rewrite (from_db_value_token base st' c' _ Hc'), Hdec'.
      rewrite (Hyes Hin).
      simpl result_of_option. step_bind. exact (Hback Hn).
    + intros Hout _. rewrite (from_db_value_token base st' c' _ Hc'), Hdec'.
      rewrite (Hno Hout). reflexivity.
Qed.

End load_after_save.

(** ** Values that do not come back as they went in *)

Section normalisation.
Context `{!fernet.Primitive} `{!hkdf.Derivation} `{!FernetLaws}.
Context (st : Settings).

(** X6. An encrypted integer field stores whatever [int()] accepts and
    loads it as that integer, so text such as ["007"] or a boolean comes
    back as a number; a value [int()] refuses is refused by the save with
    the same exception. *)
Theorem integer_field_loads_integers (e : fernet.entropy) (v : pyval)
    (Hne : EncryptedField.fernet_keys st <> [])
    (Hacc : accepted (EncryptedField.fernet_keys st))
    (Hv : v <> PNone) :
  (forall z,
     encoding.int v = Ok z ->
     exists cell,
       EncryptedField.get_db_prep_save models.IntegerField st e v = Ok cell /\
       EncryptedField.from_db_value models.IntegerField st cell
       = Ok (PInt z))
  /\
  (forall err,
     encoding.int v = Raise err ->
     EncryptedField.get_db_prep_save models.IntegerField st e v = Raise err).
Proof.
  assert (Hprep : models.get_db_prep_save models.IntegerField v
                  = PInt <$> encoding.int v).
  { destruct v; try reflexivity. congruence. }
  split.
  - intros z Hz.
    assert (Hp : models.get_db_prep_save models.IntegerField v = Ok (PInt z))
      by (rewrite Hprep, Hz; reflexivity).
    destruct (load_after_save_same models.IntegerField st e v (PInt z)
                Hne Hacc Hp ltac:(discriminate))
      as (cell & Hsave & _ & Hload).
    exists cell. split; [exact Hsave|]. rewrite Hload.
    simpl encoding.force_bytes. rewrite force_text_str_int. step_bind.
    cbn [models.to_python models.IntegerField models.make_class
         models.integer_to_python].
    rewrite int_str_int. reflexivity.
  - intros err Herr. unfold EncryptedField.get_db_prep_save.
    rewrite Hprep, Herr. reflexivity.
Qed.

(** X7. Bytes do not survive a plain encrypted field (text and bytes
    being distinct types, as in Python 3): they are stored as they are,
    and loaded as text when they are well-formed UTF-8 and as a
    [UnicodeDecodeError] when they are not; never as bytes. *)
Theorem bytes_are_loaded_as_text (e : fernet.entropy) (b : bytes)
    (Hne : EncryptedField.fernet_keys st <> [])
    (Hacc : accepted (EncryptedField.fernet_keys st)) :
  exists cell,
    EncryptedField.get_db_prep_save models.Field_class st e (PBytes b)
    = Ok cell /\
    EncryptedField.from_db_value models.Field_class st cell
    = (if encoding.utf8_valid b then Ok (PStr (string_of_list_byte b))
       else Raise UnicodeDecodeError) /\
    EncryptedField.from_db_value models.Field_class st cell
    <> Ok (PBytes b).
Proof.
  destruct (load_after_save_same models.Field_class st e (PBytes b)
              (PBytes b) Hne Hacc eq_refl ltac:(discriminate))
    as (cell & Hsave & _ & Hload).
  exists cell. split; [exact Hsave|]. rewrite Hload.
  simpl. destruct (encoding.utf8_valid b); simpl; split;
    first [reflexivity | discriminate].
Qed.

End normalisation.

(** ** Constructing fields: positional arguments, the hidden field, counters *)



(** The outcome of [Field.__init__], read off the field it returns. *)
Lemma models_init_counters args kwargs c f c' :
  models.__init__ args kwargs c = Ok (f, c') ->
  if truthy (models.attribute f "auto_created" (PBool false)) then
    models.creation_counter f = models.Field_auto_creation_counter c /\
    c' = models.Counters (models.Field_creation_counter c)
                         (models.Field_auto_creation_counter c - 1)
  else
    models.creation_counter f = models.Field_creation_counter c /\
    c' = models.Counters (models.Field_creation_counter c + 1)
                         (models.Field_auto_creation_counter c).
Proof.
  unfold models.__init__.
  destruct (models.bind_arguments args kwargs) as [bound|e]; step_bind;
    [|discriminate].
  destruct (truthy (default (PBool false) (bound !! "auto_created"))) eqn:Ha;
    intros [= <- <-]; unfold models.attribute; simpl; rewrite Ha;
    split; reflexivity.
Qed.

(** What [encrypted_field_class(editable=False, null=v)] returns. *)
Lemma hidden_field_shape (v : pyval) (c : models.counters) :
  EncryptedField.__init__ [] {[ "editable" := PBool false; "null" := v ]} c
  = Ok (models.mkField {[ "editable" := PBool false; "null" := v ]}
          (models.Field_creation_counter c) None None,
        models.Counters (models.Field_creation_counter c + 1)
                        (models.Field_auto_creation_counter c)).
Proof.
  rewrite EncryptedField_init_passes by reflexivity.
  unfold models.__init__. rewrite bind_arguments_kwargs.
  - step_bind.
    rewrite !lookup_insert_ne, !lookup_singleton_ne by discriminate.
    reflexivity.
  - apply map_Forall_insert_2; [|apply map_Forall_singleton]; known_keyword.
Qed.

(** Taking a successful [DualField.__init__] apart. *)
Lemma DualField_init_inv args kwargs c d c' :
  DualField.__init__ args kwargs c = Ok (d, c') ->
  exists c1,
    truthy (kwargs_get kwargs "primary_key") = false /\
    models.__init__ args kwargs c = Ok (DualField.field d, c1) /\
    DualField.encrypted_field d
    = models.mkField
        {[ "editable" := PBool false;
           "null" := models.null (DualField.field d) ]} (-1) None None /\
    c' = models.Counters (models.Field_creation_counter c1 + 1)
                         (models.Field_auto_creation_counter c1).
Proof.
  unfold DualField.__init__.
  destruct (truthy (kwargs_get kwargs "primary_key")); [discriminate|].
  destruct (models.__init__ args kwargs c) as [[self c1]|e]; step_bind;
    [|discriminate].
  rewrite hidden_field_shape. step_bind. intros [= <- <-].
  exists c1. repeat split; reflexivity.
Qed.



(** X9. The hidden encrypted field of every constructed dual field,
    whatever the arguments were: it is nullable exactly as the dual field
    is, it is not editable, it has no name of its own yet, and it is
    neither a primary key nor unique nor indexed. *)
Theorem hidden_field_options args kwargs c d c'
    (Hinit : DualField.__init__ args kwargs c = Ok (d, c')) :
  models.null (DualField.encrypted_field d) = models.null (DualField.field d)
  /\ models.editable (DualField.encrypted_field d) = PBool false
  /\ models.primary_key (DualField.encrypted_field d) = PBool false
  /\ models.unique (DualField.encrypted_field d) = PBool false
  /\ models.db_index (DualField.encrypted_field d) = PBool false
  /\ models.name (DualField.encrypted_field d) = None.
Proof.
  destruct (DualField_init_inv _ _ _ _ _ Hinit) as (c1 & _ & _ & -> & _).
  unfold models.null at 1, models.editable, models.primary_key,
    models.unique, models.db_index, models.attribute. simpl.
  generalize (models.null (DualField.field d)). intros v.
  vm_compute. repeat split; reflexivity.
Qed.

(** X10. Creation counters after constructing a dual field.  The hidden
    field has -1; constructing it has used up one normal counter all the
    same.  A dual field that is not auto-created has the class counter it
    found and leaves it two higher, so from a non-negative class counter
    the hidden field is ordered before its dual field; an auto-created
    dual field takes the auto-creation counter, which from -1 downwards
    is not above the hidden field's. *)
Theorem DualField_creation_counters args kwargs c d c'
    (Hinit : DualField.__init__ args kwargs c = Ok (d, c')) :
  models.creation_counter (DualField.encrypted_field d) = -1 /\
  (truthy (models.attribute (DualField.field d) "auto_created" (PBool false))
   = false ->
   models.creation_counter (DualField.field d)
   = models.Field_creation_counter c /\
   c' = models.Counters (models.Field_creation_counter c + 2)
                        (models.Field_auto_creation_counter c) /\
   (0 <= models.Field_creation_counter c ->
    models.creation_counter (DualField.encrypted_field d)
    < models.creation_counter (DualField.field d))) /\
  (truthy (models.attribute (DualField.field d) "auto_created" (PBool false))
   = true ->
   models.creation_counter (DualField.field d)
   = models.Field_auto_creation_counter c /\
   c' = models.Counters (models.Field_creation_counter c + 1)
                        (models.Field_auto_creation_counter c - 1) /\
   (models.Field_auto_creation_counter c <= -1 ->
    models.creation_counter (DualField.field d)
    <= models.creation_counter (DualField.encrypted_field d))).
Proof.
  destruct (DualField_init_inv _ _ _ _ _ Hinit) as (c1 & _ & Hself & Henc & ->).
  pose proof (models_init_counters _ _ _ _ _ Hself) as Hc.
  rewrite Henc. simpl. split; [reflexivity|].
  split; intros Ha; rewrite Ha in Hc; destruct Hc as [Hcc ->]; simpl;
    rewrite Hcc; repeat split; try lia.
  f_equal. lia.
Qed.

(** ** Naming the hidden attribute *)

Lemma append_differs (s t : string) :
  t <> ""%string -> (s ++ t)%string <> s.
Proof.
  intros Ht. induction s as [|a s IH]; simpl; [exact Ht|].
  intros [= E]. exact (IH E).
Qed.

(** X11. [contribute_to_class], on a dual field as its constructor
    returns it: the hidden field is named [<name>_encrypted], the
    descriptor redirects to that attribute, which is never the public name
    itself, [pre_save] reads it, and the hidden field keeps its creation
    counter -1 and its options. *)
Theorem contribute_to_class_names args kwargs c d c' (name : string)
    (Hinit : DualField.__init__ args kwargs c = Ok (d, c')) :
  exists d' descriptor,
    DualField.contribute_to_class d name = Ok (d', descriptor) /\
    DualFieldDescriptor.encrypted_field_attname descriptor
    = (name ++ "_encrypted")%string /\
    DualFieldDescriptor.encrypted_field_attname descriptor <> name /\
    models.name (DualField.encrypted_field d')
    = Some (name ++ "_encrypted")%string /\
    models.attname (DualField.encrypted_field d')
    = Some (name ++ "_encrypted")%string /\
    models.creation_counter (DualField.encrypted_field d') = -1 /\
    models.init_args (DualField.encrypted_field d')
    = models.init_args (DualField.encrypted_field d) /\
    models.init_args (DualField.field d')
    = models.init_args (DualField.field d) /\
    (models.name (DualField.field d) = None ->
     models.attname (DualField.field d') = Some name) /\
    (forall inst,
       DualField.pre_save d' inst
       = getattr inst (name ++ "_encrypted")%string).
Proof.
  destruct (DualField_init_inv _ _ _ _ _ Hinit) as (c1 & _ & _ & Henc & _).
  unfold DualField.contribute_to_class. rewrite Henc. simpl.
  eexists _, _. split; [reflexivity|]. simpl.
  split; [reflexivity|]. split; [apply append_differs; discriminate|].
  repeat split; try reflexivity.
  intros Hname. unfold models.set_attributes_from_name. rewrite Hname.
  reflexivity.
Qed.

(** ** The descriptor as an accessor pair *)

(** X12. Writing through the descriptor touches one attribute: every
    other attribute of the instance is as it was, a second write replaces
    the first, and writing the sentinel any number of times changes
    nothing. *)
Theorem descriptor_writes_one_attribute
    (descriptor : DualFieldDescriptor.t) (inst : gmap string pyval)
    (v : pyval) :
  (forall a,
     a <> DualFieldDescriptor.encrypted_field_attname descriptor ->
     DualFieldDescriptor.__set__ descriptor inst v !! a = inst !! a)
  /\
  (forall w,
     w <> NO_VALUE ->
     DualFieldDescriptor.__set__ descriptor
       (DualFieldDescriptor.__set__ descriptor inst v) w
     = DualFieldDescriptor.__set__ descriptor inst w)
  /\
  (forall values,
     Forall (fun w => w = NO_VALUE) values ->
     Model.assign_all descriptor inst values = inst).
Proof.
  split; [|split].
  - intros a Ha. unfold DualFieldDescriptor.__set__, setattr.
    destruct (negb _); [|reflexivity].
    apply lookup_insert_ne. congruence.
  - intros w Hw. rewrite !(descriptor_set_value _ _ w Hw).
    unfold DualFieldDescriptor.__set__, setattr.
    destruct (negb _); [|reflexivity]. apply insert_insert_eq.
  - intros values Hall. unfold Model.assign_all.
    induction Hall as [|w values -> _ IH]; [reflexivity|exact IH].
Qed.

(** X13. [None] is a value like any other for the descriptor: it is
    written through and read back, where the sentinel is dropped.
    Reading the dual attribute of an instance whose hidden attribute was
    never set raises [AttributeError], also after the sentinel was
    written. *)
Theorem descriptor_None_and_missing
    (descriptor : DualFieldDescriptor.t) (inst : gmap string pyval) :
  DualFieldDescriptor.__get__ descriptor
    (DualFieldDescriptor.__set__ descriptor inst PNone) = Ok PNone
  /\
  (inst !! DualFieldDescriptor.encrypted_field_attname descriptor = None ->
   DualFieldDescriptor.__get__ descriptor inst = Raise AttributeError /\
   DualFieldDescriptor.__get__ descriptor
     (DualFieldDescriptor.__set__ descriptor inst NO_VALUE)
   = Raise AttributeError)
  /\
  (forall v,
     inst !! DualFieldDescriptor.encrypted_field_attname descriptor = Some v ->
     DualFieldDescriptor.__get__ descriptor
       (DualFieldDescriptor.__set__ descriptor inst NO_VALUE) = Ok v).
Proof.
  split; [|split].
  - rewrite descriptor_set_value by discriminate. apply getattr_setattr.
  - intros Hmiss. rewrite descriptor_set_NO_VALUE.
    unfold DualFieldDescriptor.__get__, getattr. rewrite Hmiss. auto.
  - intros v Hv. rewrite descriptor_set_NO_VALUE.
    unfold DualFieldDescriptor.__get__, getattr. rewrite Hv. reflexivity.
Qed.

(** ** Lookups meet stored digests *)

(** X14. The digest of a lookup value is the digest stored for it.  Over
    a base class with the stock [get_db_prep_value] and [get_prep_lookup],
    the value an [exact] lookup is prepared to hashes, as a prepared
    value, to the cell that saving the original value writes; the same
    holds element by element for [in]; the right-hand side of [isnull]
    is not touched. *)
Theorem lookup_digest_is_stored_digest
    (gpv to_py : pyval -> result pyval) (d : DualField.t) :
  let base := models.make_class gpv to_py in
  (forall v p,
     DualField.get_prep_lookup base d "exact" (One v) = Ok (One p) ->
     DualField.get_db_prep_value base true p
     = DualField.get_db_prep_value base false v)
  /\
  (forall vs ps,
     DualField.get_prep_lookup base d "in" (Many vs) = Ok (Many ps) ->
     Forall2 (fun v p =>
                DualField.get_db_prep_value base true p
                = DualField.get_db_prep_value base false v) vs ps)
  /\
  (forall value,
     DualField.get_prep_lookup base d "isnull" value = Ok value).
Proof.
  intros base.
  assert (Hone : forall v p, gpv v = Ok p ->
            DualField.get_db_prep_value base true p
            = DualField.get_db_prep_value base false v).
  { intros v p Hp. unfold DualField.get_db_prep_value. simpl.
    rewrite Hp. reflexivity. }
  split; [|split].
  - intros v p. unfold DualField.get_prep_lookup. simpl.
    unfold models.Field_get_prep_lookup. simpl.
    destruct (gpv v) as [p'|e] eqn:Hp; simpl; [|discriminate].
    intros [= <-]. apply Hone, Hp.
  - intros vs ps. unfold DualField.get_prep_lookup. simpl.
    unfold models.Field_get_prep_lookup. simpl.
    destruct (comprehension gpv vs) as [ps'|e] eqn:Hc; simpl; [|discriminate].
    intros [= <-]. revert ps' Hc.
    induction vs as [|v vs IH]; simpl; intros ps'.
    + intros [= <-]. constructor.
    + destruct (gpv v) as [p|e] eqn:Hp; step_bind; [|discriminate].
      destruct (comprehension gpv vs) as [ps''|e]; step_bind; [|discriminate].
      intros [= <-]. constructor; [apply Hone, Hp | apply IH; reflexivity].
  - intros value. reflexivity.
Qed.

(** ** Saving and loading a dual attribute *)

Section dual_persistence.
Context `{!fernet.Primitive} `{!hkdf.Derivation} `{!FernetLaws}.
Context (base : models.FieldClass) (st : Settings).
Context (d : DualField.t) (descriptor : DualFieldDescriptor.t).

(** X15. The two cells written for a dual attribute agree.  If the base
    class prepares the hidden value to [None], both cells are NULL; if it
    prepares it to [p], the encrypted cell is a token that decrypts to the
    bytes of [p] and the hash cell is the SHA-256 digest of these bytes;
    if it raises, both saves raise the same exception; and if the hidden
    attribute is missing both raise [AttributeError]. *)
Theorem saved_cells_agree (e : fernet.entropy) (inst : gmap string pyval)
    (Hlink : models.attname (DualField.encrypted_field d)
             = Some (DualFieldDescriptor.encrypted_field_attname descriptor))
    (Hne : EncryptedField.fernet_keys st <> [])
    (Hacc : accepted (EncryptedField.fernet_keys st)) :
  (forall v,
     getattr inst (DualFieldDescriptor.encrypted_field_attname descriptor)
     = Ok v ->
     models.get_db_prep_value base false v = Ok PNone ->
     Model.save_encrypted_cell base st d e inst = Ok NULL /\
     Model.save_hash_cell base d inst = Ok NULL)
  /\
  (forall v p,
     getattr inst (DualFieldDescriptor.encrypted_field_attname descriptor)
     = Ok v ->
     models.get_db_prep_value base false v = Ok p -> p <> PNone ->
     exists c token,
       EncryptedField.fernet st = Ok c /\
       Model.save_encrypted_cell base st d e inst = Ok (Binary token) /\
       fernet.decrypt c token = Ok (encoding.force_bytes p) /\
       Model.save_hash_cell base d inst
       = Ok (Binary (hashlib.sha256 (encoding.force_bytes p))))
  /\
  (forall v err,
     getattr inst (DualFieldDescriptor.encrypted_field_attname descriptor)
     = Ok v ->
     models.get_db_prep_value base false v = Raise err ->
     Model.save_encrypted_cell base st d e inst = Raise err /\
     Model.save_hash_cell base d inst = Raise err)
  /\
  (inst !! DualFieldDescriptor.encrypted_field_attname descriptor = None ->
   Model.save_encrypted_cell base st d e inst = Raise AttributeError /\
   Model.save_hash_cell base d inst = Raise AttributeError).
Proof.
  unfold Model.save_encrypted_cell, Model.save_hash_cell, DualField.pre_save,
    models.value_from_object. rewrite Hlink.
  split; [|split; [|split]].
  - intros v Hg Hp. rewrite Hg. step_bind.
    unfold EncryptedField.get_db_prep_save, models.get_db_prep_save,
      DualField.get_db_prep_value. rewrite Hp. split; reflexivity.
  - intros v p Hg Hp Hn. rewrite Hg. step_bind.
    destruct (fernet_built st Hne Hacc)
      as (c & primary & rest & Hc & Hks & Henc & Hdec).
    exists c, (fernet.encrypt_with primary e (encoding.force_bytes p)).
    split; [exact Hc|]. split; [|split].
    + exact (get_db_prep_save_value base st c primary e v p Hc (Henc e) Hp Hn).
    + rewrite Hdec.
      assert (Hk : fernet.key_ok primary = true).
      { unfold accepted in Hacc. rewrite Hks in Hacc.
        apply Forall_cons in Hacc as [Hk _]. exact Hk. }
      rewrite Hks, (spec_first_success_head primary rest e _ Hk).
      reflexivity.
    + unfold DualField.get_db_prep_value. rewrite Hp. step_bind.
      destruct p; try congruence; reflexivity.
  - intros v err Hg Hp. rewrite Hg. step_bind.
    unfold EncryptedField.get_db_prep_save, models.get_db_prep_save,
      DualField.get_db_prep_value. rewrite Hp. split; reflexivity.
  - intros Hmiss. unfold getattr. rewrite Hmiss. split; reflexivity.
Qed.

(** X16. A dual attribute survives a save and a load.  Assign a
    supported value, save the two cells, load them into a fresh instance:
    reading the dual attribute gives the value back; the hash cell plays
    no part in it. *)
Theorem dual_attribute_round_trip
    (e : fernet.entropy) (inst : gmap string pyval) (v : pyval)
    (Hlink : models.attname (DualField.encrypted_field d)
             = Some (DualFieldDescriptor.encrypted_field_attname descriptor))
    (Hne : EncryptedField.fernet_keys st <> [])
    (Hacc : accepted (EncryptedField.fernet_keys st))
    (Hv : supported base v) (Hreal : v <> NO_VALUE) :
  exists encrypted_cell hash_cell loaded,
    Model.save_encrypted_cell base st d e
      (DualFieldDescriptor.__set__ descriptor inst v) = Ok encrypted_cell /\
    Model.save_hash_cell base d
      (DualFieldDescriptor.__set__ descriptor inst v) = Ok hash_cell /\
    (encrypted_cell = NULL <-> v = PNone) /\
    (hash_cell = NULL <-> v = PNone) /\
    Model.from_db base st d descriptor encrypted_cell hash_cell = Ok loaded /\
    DualFieldDescriptor.__get__ descriptor loaded = Ok v.
Proof.
  destruct Hv as (p & Hp & Hnone & Hback).
  assert (Hg : getattr (DualFieldDescriptor.__set__ descriptor inst v)
                 (DualFieldDescriptor.encrypted_field_attname descriptor)
               = Ok v).
  { rewrite descriptor_set_value by exact Hreal. apply getattr_setattr. }
  assert (Hcells : exists ec hc,
            EncryptedField.get_db_prep_save base st e v = Ok ec /\
            DualField.get_db_prep_value base false v = Ok hc /\
            (ec = NULL <-> v = PNone) /\ (hc = NULL <-> v = PNone) /\
            EncryptedField.from_db_value base st ec = Ok v).
  { unfold DualField.get_db_prep_value.
    change (models.get_db_prep_value base false v)
      with (models.get_db_prep_save base v). rewrite Hp. step_bind.
    destruct (decide (v = PNone)) as [->|Hn].
    - assert (p = PNone) as -> by (apply Hnone; reflexivity).
      exists NULL, NULL. rewrite (get_db_prep_save_None base st e PNone Hp).
      repeat split; reflexivity.
    - assert (Hpn : p <> PNone) by (intros E; apply Hn, Hnone, E).
      destruct (fernet_built st Hne Hacc)
        as (c & primary & rest & Hc & Hks & Henc & Hdec).
      assert (Hk : fernet.key_ok primary = true).
      { unfold accepted in Hacc. rewrite Hks in Hacc.
        apply Forall_cons in Hacc as [Hk _]. exact Hk. }
      exists (Binary (fernet.encrypt_with primary e (encoding.force_bytes p))),
             (Binary (hashlib.sha256 (encoding.force_bytes p))).
      split; [exact (get_db_prep_save_value base st c primary e v p Hc
                       (Henc e) Hp Hpn)|].
      split; [destruct p; try congruence; reflexivity|].
      split; [split; [discriminate | contradiction]|].
      split; [split; [discriminate | contradiction]|].
      rewrite (from_db_value_token base st c _ Hc), Hdec.
      rewrite Hks, (spec_first_success_head primary rest e _ Hk).
      simpl result_of_option. step_bind. exact (Hback Hn). }
  destruct Hcells as (ec & hc & Hec & Hhc & Hen & Hhn & Hload).
  exists ec, hc,
    (setattr ∅ (DualFieldDescriptor.encrypted_field_attname descriptor) v).
  unfold Model.save_encrypted_cell, Model.save_hash_cell, DualField.pre_save,
    models.value_from_object, Model.from_db.
  rewrite Hlink, Hg, Hload. step_bind. rewrite Hec, Hhc.
  repeat split; try apply Hen; try apply Hhn.
  apply getattr_setattr.
Qed.

End dual_persistence.

(** ** The further properties at work on the reference instance *)

Lemma fernet_usable_iff_witness :
  (exists c, EncryptedField.fernet reference.settings_rotated = Ok c) /\
  EncryptedField.fernet (mkSettings (PStr "s") (Some []) None)
  = Raise ValueError /\
  EncryptedField.fernet
    (mkSettings (PStr "s")
       (Some [hkdf.derive_fernet_key (PStr "secret-v1"); PStr "too short"])
       (Some (PBool false)))
  = Raise ValueError /\
  EncryptedField.fernet
    (mkSettings (PStr "s")
       (Some [hkdf.derive_fernet_key (PStr "secret-v1"); PNone;
              PStr "too short"])
       (Some (PBool false)))
  = Raise TypeError.
Proof.
  split; [|split; [|split]].
  - apply (proj1 (fernet_usable_iff reference.settings_rotated)).
    split; by_evaluation.
  - apply (proj1 (proj2 (fernet_usable_iff
                           (mkSettings (PStr "s") (Some []) None)))).
    reflexivity.
  - apply (proj1 (proj2 (proj2 (fernet_usable_iff
             (mkSettings (PStr "s")
                (Some [hkdf.derive_fernet_key (PStr "secret-v1");
                       PStr "too short"])
                (Some (PBool false))))))
             [hkdf.derive_fernet_key (PStr "secret-v1")]
             (PStr "too short") []);
      [reflexivity | by_evaluation | vm_compute; reflexivity].
  - apply (proj1 (proj2 (proj2 (fernet_usable_iff
             (mkSettings (PStr "s")
                (Some [hkdf.derive_fernet_key (PStr "secret-v1"); PNone;
                       PStr "too short"])
                (Some (PBool false))))))
             [hkdf.derive_fernet_key (PStr "secret-v1")]
             PNone [PStr "too short"]);
      [reflexivity | by_evaluation | vm_compute; reflexivity].
Defined.

Lemma unusable_keys_only_None_passes_witness :
  let st := mkSettings (PStr "s")
              (Some [hkdf.derive_fernet_key (PStr "secret-v1");
                     PStr "too short"])
              (Some (PBool false)) in
  EncryptedField.get_db_prep_save models.IntegerField st reference.entropy0
    PNone = Ok NULL /\
  EncryptedField.get_db_prep_save models.IntegerField st reference.entropy0
    (PInt 5) = Raise ValueError /\
  EncryptedField.from_db_value models.IntegerField st (Binary [x80])
  = Raise ValueError.
Proof.
  intros st.
  destruct (unusable_keys_only_None_passes models.IntegerField st
              reference.entropy0)
    as (err & _ & _ & Htext & Hnone & _ & Hval & Hcell).
  { right. by_evaluation. }
  rewrite (Htext ltac:(by_evaluation)) in *.
  split; [|split].
  - apply Hnone. reflexivity.
  - apply (Hval (PInt 5) (PInt 5)); [reflexivity | discriminate].
  - apply Hcell.
Defined.

Lemma derived_configuration_usable_witness :
  (exists c, EncryptedField.fernet reference.settings_rotated = Ok c) /\
  EncryptedField.fernet reference.settings_default
  = Ok (fernet.Single
          (fernet.mkFernet
             (hkdf.derive_fernet_key (PStr "django-insecure-secret")))).
Proof.
  split.
  - apply (proj1 (derived_configuration_usable reference.settings_rotated
                    eq_refl)).
    discriminate.
  - apply (proj2 (derived_configuration_usable reference.settings_default
                    eq_refl)).
    reflexivity.
Defined.

Lemma load_after_save_witness :
  (exists cell,
     EncryptedField.get_db_prep_save models.TextField
       reference.settings_rotated reference.entropy0 (PInt 7) = Ok cell /\
     cell <> NULL /\
     EncryptedField.from_db_value models.TextField
       reference.settings_rotated cell = Ok (PStr "7")) /\
  EncryptedField.get_db_prep_save models.IntegerField
    reference.settings_rotated reference.entropy0 (PStr "seven")
  = Raise ValueError.
Proof.
  destruct (load_after_save models.TextField reference.settings_rotated
              reference.entropy0 (PInt 7)
              ltac:(by_evaluation) ltac:(by_evaluation)) as [Hok _].
  destruct (load_after_save models.IntegerField reference.settings_rotated
              reference.entropy0 (PStr "seven")
              ltac:(by_evaluation) ltac:(by_evaluation)) as [_ Herr].
  split.
  - destruct (Hok (PStr "7") eq_refl ltac:(discriminate))
      as (cell & Hsave & Hnn & Hload).
    exists cell. split; [exact Hsave|]. split; [exact Hnn|].
    rewrite Hload. reflexivity.
  - apply Herr. reflexivity.
Defined.

Lemma rotation_keeps_rows_readable_witness :
  exists cell,
    EncryptedField.get_db_prep_save models.IntegerField
      reference.settings_old reference.entropy0 (PInt (-42)) = Ok cell /\
    EncryptedField.from_db_value models.IntegerField
      reference.settings_rotated cell = Ok (PInt (-42)) /\
    EncryptedField.from_db_value models.IntegerField
      (mkSettings (PStr "s") (Some [PStr "secret-v2"]) None) cell
    = Raise InvalidToken.
Proof.
  destruct (rotation_keeps_rows_readable models.IntegerField
              reference.settings_old reference.settings_rotated
              reference.entropy0 (PInt (-42))
              (hkdf.derive_fernet_key (PStr "secret-v1")) []
              eq_refl ltac:(by_evaluation) ltac:(by_evaluation)
              ltac:(by_evaluation)
              ltac:(unfold tells_apart, same_key; by_evaluation)
              (supported_integer (-42)))
    as (cell & Hsave & Hin & _).
  destruct (rotation_keeps_rows_readable models.IntegerField
              reference.settings_old
              (mkSettings (PStr "s") (Some [PStr "secret-v2"]) None)
              reference.entropy0 (PInt (-42))
              (hkdf.derive_fernet_key (PStr "secret-v1")) []
              eq_refl ltac:(by_evaluation) ltac:(by_evaluation)
              ltac:(by_evaluation)
              ltac:(unfold tells_apart, same_key; by_evaluation)
              (supported_integer (-42)))
    as (cell' & Hsave' & _ & Hout).
  assert (cell' = cell) as -> by congruence.
  exists cell. split; [exact Hsave|]. split.
  - apply Hin. unfold has_key, same_key. by_evaluation.
  - apply Hout; [unfold has_key, same_key; by_evaluation | discriminate].
Defined.

Lemma integer_field_loads_integers_witness :
  (exists cell,
     EncryptedField.get_db_prep_save models.IntegerField
       reference.settings_rotated reference.entropy0 (PStr "007") = Ok cell /\
     EncryptedField.from_db_value models.IntegerField
       reference.settings_rotated cell = Ok (PInt 7)) /\
  (exists cell,
     EncryptedField.get_db_prep_save models.IntegerField
       reference.settings_rotated reference.entropy0 (PStr " 1_000 ")
     = Ok cell /\
     EncryptedField.from_db_value models.IntegerField
       reference.settings_rotated cell = Ok (PInt 1000)) /\
  EncryptedField.get_db_prep_save models.IntegerField
    reference.settings_rotated reference.entropy0 (PStr "1__0")
  = Raise ValueError /\
  EncryptedField.get_db_prep_save models.IntegerField
    reference.settings_rotated reference.entropy0 (PObject 5)
  = Raise TypeError.
Proof.
  split; [|split; [|split]].
  - apply (proj1 (integer_field_loads_integers reference.settings_rotated
                    reference.entropy0 (PStr "007")
                    ltac:(by_evaluation) ltac:(by_evaluation)
                    ltac:(discriminate))).
    reflexivity.
  - apply (proj1 (integer_field_loads_integers reference.settings_rotated
                    reference.entropy0 (PStr " 1_000 ")
                    ltac:(by_evaluation) ltac:(by_evaluation)
                    ltac:(discriminate))).
    reflexivity.
  - apply (proj2 (integer_field_loads_integers reference.settings_rotated
                    reference.entropy0 (PStr "1__0")
                    ltac:(by_evaluation) ltac:(by_evaluation)
                    ltac:(discriminate))).
    reflexivity.
  - apply (proj2 (integer_field_loads_integers reference.settings_rotated
                    reference.entropy0 (PObject 5)
                    ltac:(by_evaluation) ltac:(by_evaluation)
                    ltac:(discriminate))).
    reflexivity.
Defined.

Lemma bytes_are_loaded_as_text_witness :
  (exists cell,
     EncryptedField.get_db_prep_save models.Field_class
       reference.settings_rotated reference.entropy0 (PBytes [xff; xfe])
     = Ok cell /\
     EncryptedField.from_db_value models.Field_class
       reference.settings_rotated cell = Raise UnicodeDecodeError) /\
  (exists cell,
     EncryptedField.get_db_prep_save models.Field_class
       reference.settings_rotated reference.entropy0 (PBytes [x6f; x6b])
     = Ok cell /\
     EncryptedField.from_db_value models.Field_class
       reference.settings_rotated cell = Ok (PStr "ok")).
Proof.
  split.
  - destruct (bytes_are_loaded_as_text reference.settings_rotated
                reference.entropy0 [xff; xfe]
                ltac:(by_evaluation) ltac:(by_evaluation))
      as (cell & Hsave & Hload & _).
    exists cell. split; [exact Hsave | exact Hload].
  - destruct (bytes_are_loaded_as_text reference.settings_rotated
                reference.entropy0 [x6f; x6b]
                ltac:(by_evaluation) ltac:(by_evaluation))
      as (cell & Hsave & Hload & _).
    exists cell. split; [exact Hsave | exact Hload].
Defined.


Lemma hidden_field_options_witness :
  exists d c',
    DualField.__init__ []
      {[ "null" := PBool true; "unique" := PBool true ]}
      models.initial_counters = Ok (d, c') /\
    models.null (DualField.encrypted_field d) = models.null (DualField.field d)
    /\ models.editable (DualField.encrypted_field d) = PBool false
    /\ models.unique (DualField.encrypted_field d) = PBool false.
Proof.
  destruct (DualField.__init__ []
              {[ "null" := PBool true; "unique" := PBool true ]}
              models.initial_counters) as [[d c']|err] eqn:E;
    [|vm_compute in E; discriminate E].
  destruct (hidden_field_options _ _ _ _ _ E) as (Hn & He & _ & Hu & _).
  exists d, c'. repeat split; assumption.
Defined.

Lemma DualField_creation_counters_witness :
  exists d c',
    DualField.__init__ [] {[ "null" := PBool true ]} (models.Counters 7 (-3))
    = Ok (d, c') /\
    models.creation_counter (DualField.encrypted_field d) = -1 /\
    models.creation_counter (DualField.field d) = 7 /\
    c' = models.Counters 9 (-3).
Proof.
  destruct (DualField.__init__ [] {[ "null" := PBool true ]}
              (models.Counters 7 (-3))) as [[d c']|err] eqn:E;
    [|vm_compute in E; discriminate E].
  destruct (DualField_creation_counters _ _ _ _ _ E) as (Henc & Hnormal & _).
  destruct Hnormal as (Hf & Hc & _).
  { destruct (DualField_init_inv _ _ _ _ _ E) as (c1 & _ & Hself & _).
    destruct (models_init_kwargs {[ "null" := PBool true ]}
                (models.Counters 7 (-3))) as (f & c2 & Hf & Hargs).
    { apply map_Forall_singleton. known_keyword. }
    rewrite Hf in Hself. injection Hself as <- _.
    unfold models.attribute. rewrite Hargs. reflexivity. }
  exists d, c'. repeat split; assumption.
Defined.

Lemma contribute_to_class_names_witness :
  exists d c' d' descriptor,
    DualField.__init__ [] {[ "null" := PBool true ]} models.initial_counters
    = Ok (d, c') /\
    DualField.contribute_to_class d "ssn" = Ok (d', descriptor) /\
    DualFieldDescriptor.encrypted_field_attname descriptor = "ssn_encrypted"
    /\ models.attname (DualField.encrypted_field d') = Some "ssn_encrypted".
Proof.
  destruct (DualField.__init__ [] {[ "null" := PBool true ]}
              models.initial_counters) as [[d c']|err] eqn:E;
    [|vm_compute in E; discriminate E].
  destruct (contribute_to_class_names _ _ _ _ _ "ssn" E)
    as (d' & descriptor & Hc & Hd & _ & _ & Ha & _).
  exists d, c', d', descriptor. repeat split; assumption.
Defined.

Lemma descriptor_writes_one_attribute_witness :
  let inst : gmap string pyval :=
    {[ "id" := PInt 1; "ssn_encrypted" := PInt 5 ]} in
  DualFieldDescriptor.__set__ reference.ssn_descriptor inst (PInt 6)
    !! "id" = Some (PInt 1) /\
  DualFieldDescriptor.__set__ reference.ssn_descriptor
    (DualFieldDescriptor.__set__ reference.ssn_descriptor inst (PInt 6))
    (PInt 7)
  = DualFieldDescriptor.__set__ reference.ssn_descriptor inst (PInt 7) /\
  Model.assign_all reference.ssn_descriptor inst [NO_VALUE; NO_VALUE] = inst.
Proof.
  intros inst.
  destruct (descriptor_writes_one_attribute reference.ssn_descriptor inst
              (PInt 6)) as (Hframe & Hover & Hsent).
  split; [|split].
  - rewrite (Hframe "id") by discriminate. reflexivity.
  - apply Hover. discriminate.
  - apply Hsent. repeat constructor.
Defined.

Lemma descriptor_None_and_missing_witness :
  DualFieldDescriptor.__get__ reference.ssn_descriptor ∅
  = Raise AttributeError /\
  DualFieldDescriptor.__get__ reference.ssn_descriptor
    (DualFieldDescriptor.__set__ reference.ssn_descriptor
       {[ "ssn_encrypted" := PInt 5 ]} NO_VALUE) = Ok (PInt 5).
Proof.
  destruct (descriptor_None_and_missing reference.ssn_descriptor ∅)
    as (_ & Hmiss & _).
  destruct (descriptor_None_and_missing reference.ssn_descriptor
              {[ "ssn_encrypted" := PInt 5 ]}) as (_ & _ & Hkeep).
  split.
  - apply Hmiss. reflexivity.
  - apply Hkeep. reflexivity.
Defined.

Lemma lookup_digest_is_stored_digest_witness :
  DualField.get_db_prep_value models.IntegerField true (PInt 42)
  = DualField.get_db_prep_value models.IntegerField false (PStr " 42 ") /\
  Forall2 (fun v p =>
             DualField.get_db_prep_value models.IntegerField true p
             = DualField.get_db_prep_value models.IntegerField false v)
    [PStr "1"; PBool true] [PInt 1; PInt 1].
Proof.
  destruct (lookup_digest_is_stored_digest models.integer_get_prep_value
              models.integer_to_python reference.ssn_field)
    as (Hexact & Hin & _).
  split.
  - apply (Hexact (PStr " 42 ") (PInt 42)). reflexivity.
  - apply (Hin [PStr "1"; PBool true] [PInt 1; PInt 1]). reflexivity.
Defined.

Lemma saved_cells_agree_witness :
  let inst : gmap string pyval := {[ "ssn_encrypted" := PStr "42" ]} in
  exists c token,
    EncryptedField.fernet reference.settings_rotated = Ok c /\
    Model.save_encrypted_cell models.IntegerField reference.settings_rotated
      reference.ssn_field reference.entropy0 inst = Ok (Binary token) /\
    fernet.decrypt c token = Ok (list_byte_of_string "42") /\
    Model.save_hash_cell models.IntegerField reference.ssn_field inst
    = Ok (Binary (hashlib.sha256 (list_byte_of_string "42"))).
Proof.
  intros inst.
  destruct (saved_cells_agree models.IntegerField reference.settings_rotated
              reference.ssn_field reference.ssn_descriptor
              reference.entropy0 inst eq_refl
              ltac:(by_evaluation) ltac:(by_evaluation))
    as (_ & Hval & _ & _).
  apply (Hval (PStr "42") (PInt 42)); [reflexivity | reflexivity | discriminate].
Defined.

Lemma dual_attribute_round_trip_witness :
  exists encrypted_cell hash_cell loaded,
    Model.save_encrypted_cell models.IntegerField reference.settings_rotated
      reference.ssn_field reference.entropy0
      (DualFieldDescriptor.__set__ reference.ssn_descriptor ∅ (PInt 42))
    = Ok encrypted_cell /\
    Model.save_hash_cell models.IntegerField reference.ssn_field
      (DualFieldDescriptor.__set__ reference.ssn_descriptor ∅ (PInt 42))
    = Ok hash_cell /\
    Model.from_db models.IntegerField reference.settings_rotated
      reference.ssn_field reference.ssn_descriptor encrypted_cell hash_cell
    = Ok loaded /\
    DualFieldDescriptor.__get__ reference.ssn_descriptor loaded
    = Ok (PInt 42).
Proof.
  destruct (dual_attribute_round_trip models.IntegerField
              reference.settings_rotated reference.ssn_field
              reference.ssn_descriptor reference.entropy0 ∅ (PInt 42)
              eq_refl ltac:(by_evaluation) ltac:(by_evaluation)
              (supported_integer 42) ltac:(discriminate))
    as (ec & hc & loaded & Hec & Hhc & _ & _ & Hload & Hget).
  exists ec, hc, loaded. repeat split; assumption.
Defined.
